(** * dataset.views: the view layer of the dataset application

    A shallow embedding of [dataset/views.py].  Handlers run in a small
    state-and-exception monad over the database; the pieces of Django and of
    the REST framework the views delegate to (generic views, the ORM manager
    methods, the mapping of an uncaught exception to a status code) are
    modelled next to them. *)

From Stdlib Require Import ZArith Lia.
From stdpp Require Import base option list strings gmap.

Local Open Scope Z_scope.
Set Warnings "-register-all".

(** ** Python exceptions and the handler monad *)

Inductive Exception : Type :=
| IntegrityError
| Http404
| DoesNotExist
| MultipleObjectsReturned
| KeyError (key : string)
| AttributeError (msg : string)
| ValueError (msg : string).

#[export] Instance Exception_eq_dec : EqDecision Exception.
Proof. solve_decision. Defined.

(** A computation over a store [S]: it ends with a value or with a raised
    exception, and in both cases with the store as it is then (an exception
    rolls nothing back by itself). *)
Definition M (S A : Type) : Type := S → (Exception + A) * S.

Definition run {S A} (m : M S A) (s : S) : (Exception + A) * S := m s.

#[export] Instance M_ret {S} : MRet (M S) := λ A a s, (inr a, s).

#[export] Instance M_bind {S} : MBind (M S) := λ A B k m s,
  match m s with
  | (inl e, s') => (inl e, s')
  | (inr a, s') => k a s'
  end.

Definition raise {S A} (e : Exception) : M S A := λ s, (inl e, s).

Definition gets {S A} (f : S → A) : M S A := λ s, (inr (f s), s).

Definition modify {S} (f : S → S) : M S unit := λ s, (inr tt, f s).

(** [try: body except e: handler], for the one exception class [e]. *)
Definition try_except {S A} (body : M S A) (e : Exception) (handler : M S A)
  : M S A := λ s,
  match body s with
  | (inl e', s') => if bool_decide (e' = e) then handler s' else (inl e', s')
  | (inr a, s') => (inr a, s')
  end.

(** [d[key]] on a Python dict. *)
Definition getitem {S A} (d : gmap string A) (key : string) : M S A :=
  match d !! key with
  | Some v => mret v
  | None => raise (KeyError key)
  end.

(** What the client sees of an exception no handler caught: Django (and the
    REST framework's exception handler before it) answers [Http404] with
    status 404 and every other exception listed here with a server error. *)
Definition status_of_exception (e : Exception) : Z :=
  match e with
  | Http404 => 404
  | _ => 500
  end.

(** ** Models (dataset.models) *)

Record Account : Type := { account_id : Z; account_name : string }.

Record Dataset : Type :=
  { ds_pk : Z; ds_owner : Account; ds_name : string; ds_created : Z }.

Record DataFile : Type :=
  { df_pk : Z; df_dataset : Dataset; df_data : string }.

Record StarredDataset : Type :=
  { star_pk : Z; star_user_id : Z; star_dataset_id : Z }.

#[export] Instance Account_eq_dec : EqDecision Account.
Proof. solve_decision. Defined.
#[export] Instance Dataset_eq_dec : EqDecision Dataset.
Proof. solve_decision. Defined.
#[export] Instance DataFile_eq_dec : EqDecision DataFile.
Proof. solve_decision. Defined.
#[export] Instance StarredDataset_eq_dec : EqDecision StarredDataset.
Proof. solve_decision. Defined.

(** The tables, each in the order its default queryset yields the rows, and
    the key sequence of the star table: the greatest key the table has been
    given so far, which the deletion of a row does not take back.  (Rows are
    deleted from the star table only: the views modelled here add to the
    other two tables and never take from them.) *)
Record DB : Type :=
  { datasets : list Dataset;
    datafiles : list DataFile;
    stars : list StarredDataset;
    star_seq : Z }.

Definition set_datasets (l : list Dataset) (db : DB) : DB :=
  {| datasets := l; datafiles := datafiles db; stars := stars db;
     star_seq := star_seq db |}.
Definition set_datafiles (l : list DataFile) (db : DB) : DB :=
  {| datasets := datasets db; datafiles := l; stars := stars db;
     star_seq := star_seq db |}.
Definition set_stars (l : list StarredDataset) (db : DB) : DB :=
  {| datasets := datasets db; datafiles := datafiles db; stars := l;
     star_seq := star_seq db |}.
Definition set_star_seq (n : Z) (db : DB) : DB :=
  {| datasets := datasets db; datafiles := datafiles db; stars := stars db;
     star_seq := n |}.

(** The key an auto-increment column gives the next row of a table that
    rows are only added to: one more than the greatest key. *)
Definition next_pk {A} (pk : A → Z) (rows : list A) : Z :=
  1 + foldr Z.max 0 (pk <$> rows).

(** The key the next star gets: one more than the greatest key the table
    has been given (its sequence), and than every key present. *)
Definition next_star_pk (db : DB) : Z :=
  1 + Z.max (star_seq db) (foldr Z.max 0 (star_pk <$> stars db)).

(** *** Manager and queryset methods *)

(** [queryset.get()]: the one row of the queryset. *)
Definition queryset_get {S A} (rows : list A) : M S A :=
  match rows with
  | [] => raise DoesNotExist
  | [row] => mret row
  | _ => raise MultipleObjectsReturned
  end.

(** [queryset.first()]: the first row of the queryset in its order (the
    model's ordering, or the primary key where it has none), which is the
    order the table is listed in; [None] for an empty queryset. *)
Definition queryset_first {A} (rows : list A) : option A := head rows.

(** [queryset.count()]. *)
Definition queryset_count {A} (rows : list A) : Z := Z.of_nat (length rows).

(** The row a descending sort on [key] puts first; among rows with the same
    key, the earliest of the queryset. *)
Fixpoint latest_by {A} (key : A → Z) (rows : list A) : option A :=
  match rows with
  | [] => None
  | row :: rest =>
      match latest_by key rest with
      | Some best => if key row <? key best then Some best else Some row
      | None => Some row
      end
  end.

(** Modelled from the spec: [Dataset.Meta.get_latest_by] is declared in
    dataset.models, which is not among the sources; the list handler's
    "latest" is the most recently created dataset, so the field is
    [created].  [Dataset.objects.latest()] raises [DoesNotExist] on an empty
    table. *)
Definition Dataset_objects_latest : M DB Dataset :=
  rows ← gets datasets;
  match latest_by ds_created rows with
  | Some row => mret row
  | None => raise DoesNotExist
  end.

Definition Dataset_objects_count : M DB Z :=
  gets (λ db, queryset_count (datasets db)).

(** [Dataset.objects.filter(owner__name=account)]; a lookup value of [None]
    asks for a null name, which no account has. *)
Definition filter_owner__name (account : option string)
    (rows : list Dataset) : list Dataset :=
  filter (λ d, Some (account_name (ds_owner d)) = account) rows.

(** [queryset.filter(name=slug)]. *)
Definition filter_name (slug : option string)
    (rows : list Dataset) : list Dataset :=
  filter (λ d, Some (ds_name d) = slug) rows.

(** [instance.delete()]: removes the row with the instance's primary key. *)
Definition StarredDataset_delete (star : StarredDataset) : M DB unit :=
  modify (λ db,
    set_stars (filter (λ s, star_pk s ≠ star_pk star) (stars db)) db).

(** [Dataset.objects.get(owner__name=account, name=slug)]. *)
Definition Dataset_objects_get (account slug : option string)
  : M DB Dataset :=
  rows ← gets datasets;
  queryset_get (filter_name slug (filter_owner__name account rows)).

(** ** Requests, responses and template contexts *)

(** [request.user], [request.data] and the time the request is served at.
    The body maps its keys to identifiers. *)
Record Request : Type :=
  { user : Account; data : gmap string Z; now : Z }.

Inductive JSON : Type :=
| JNull
| JInt (n : Z)
| JStr (s : string)
| JList (items : list JSON)
| JDict (items : list (string * JSON)).

(** ** Forms (dataset.forms) *)

(** Both forms are built with the request among their keyword arguments
    ([get_form_kwargs]); [errors] holds the non-field errors. *)
Record CreateDatasetForm : Type :=
  { cd_request : Request; cd_name : string; cd_errors : list string }.

Record DataFileUploadForm : Type :=
  { uf_request : Request; uf_dataset : Dataset; uf_data : string;
    uf_errors : list string }.

(** [form.add_error(None, message)]. *)
Definition cd_add_error (message : string) (form : CreateDatasetForm)
  : CreateDatasetForm :=
  {| cd_request := cd_request form; cd_name := cd_name form;
     cd_errors := cd_errors form ++ [message] |}.

Definition uf_add_error (message : string) (form : DataFileUploadForm)
  : DataFileUploadForm :=
  {| uf_request := uf_request form; uf_dataset := uf_dataset form;
     uf_data := uf_data form; uf_errors := uf_errors form ++ [message] |}.

(** Some dataset of the form's user already has the form's name. *)
Definition duplicate_name (form : CreateDatasetForm) (db : DB) : Prop :=
  Exists (λ d, account_id (ds_owner d) = account_id (user (cd_request form))
               ∧ ds_name d = cd_name form) (datasets db).

(** Some file of the form's dataset already has the form's content. *)
Definition duplicate_file (form : DataFileUploadForm) (db : DB) : Prop :=
  Exists (λ f, ds_pk (df_dataset f) = ds_pk (uf_dataset form)
               ∧ df_data f = uf_data form) (datafiles db).

(** Modelled from the spec: [CreateDatasetForm.save] is defined in
    dataset.forms, which is not among the sources.  It persists a new
    Dataset owned by the current user; the pair (owner, name) is unique, and
    the storage layer rejects a second row for it with [IntegrityError],
    inserting nothing. *)
Definition CreateDatasetForm_save (form : CreateDatasetForm) : M DB Dataset :=
  db ← gets id;
  let rows := datasets db in
  let owner := user (cd_request form) in
  if bool_decide (duplicate_name form db)
  then raise IntegrityError
  else
    let row := {| ds_pk := next_pk ds_pk rows; ds_owner := owner;
                  ds_name := cd_name form;
                  ds_created := now (cd_request form) |} in
    modify (set_datasets (rows ++ [row]));;
    mret row.

(** Modelled from the spec: [DataFileUploadForm.save] is defined in
    dataset.forms, which is not among the sources.  It persists a new file
    record linked to the form's dataset; byte-identical content within one
    dataset is rejected by the storage layer with [IntegrityError],
    inserting nothing. *)
Definition DataFileUploadForm_save (form : DataFileUploadForm)
  : M DB DataFile :=
  db ← gets id;
  let rows := datafiles db in
  if bool_decide (duplicate_file form db)
  then raise IntegrityError
  else
    let row := {| df_pk := next_pk df_pk rows;
                  df_dataset := uf_dataset form;
                  df_data := uf_data form |} in
    modify (set_datafiles (rows ++ [row]));;
    mret row.

(** The values a template context holds. *)
Inductive CtxVal : Type :=
| CInt (n : Z)
| CStr (s : string)
| CBool (b : bool)
| CTime (t : Z)
| CDataset (d : Dataset)
| CDataFile (f : DataFile)
| CDatasets (rows : list Dataset)
| CCreateForm (form : CreateDatasetForm)
| CUploadForm (form : DataFileUploadForm).

Inductive HttpResponse : Type :=
| TemplateResponse (template : string) (context : gmap string CtxVal)
| HttpResponseRedirect (url : string)
| Response (body : JSON).

(** ** What the views import from modules that are not among the sources *)

(** [Dataset.get_absolute_url] (dataset.models): the URL of the dataset's
    detail page. *)
Class DatasetModel : Type :=
  { get_absolute_url : Dataset → string }.

(** The fields a [StarredDatasetSerializer] is constructed from in
    [create]. *)
Record StarData : Type := { sd_dataset : Z; sd_user_id : Z }.

(** [StarredDatasetSerializer] (dataset.serializers): the representation of
    a star, and validation, which may consult the database. *)
Class StarSerializer : Type :=
  { serializer_data : StarredDataset → JSON;
    is_valid : StarData → DB → bool }.

(** [form.is_valid()] of the upload form (dataset.forms). *)
Class UploadFormValidation : Type :=
  { upload_is_valid : DataFileUploadForm → DB → bool }.

(** Some star already joins the user and the dataset of the data. *)
Definition duplicate_star (d : StarData) (db : DB) : Prop :=
  Exists (λ s, star_user_id s = sd_user_id d
               ∧ star_dataset_id s = sd_dataset d) (stars db).

(** Modelled from the spec: [StarredDatasetSerializer.save] is inherited by
    a class of dataset.serializers, which is not among the sources.  It
    saves the star record built from the validated data: a new row for
    (user, dataset) under the next key of the table.  The pair is unique,
    and the storage layer rejects a second row for it with
    [IntegrityError], inserting nothing. *)
Definition StarredDatasetSerializer_save (d : StarData)
  : M DB StarredDataset :=
  db ← gets id;
  if bool_decide (duplicate_star d db)
  then raise IntegrityError
  else
    let star := {| star_pk := next_star_pk db;
                   star_user_id := sd_user_id d;
                   star_dataset_id := sd_dataset d |} in
    modify (λ db, set_star_seq (star_pk star)
                    (set_stars (stars db ++ [star]) db));;
    mret star.

(** ** View instances

    A class-based view is instantiated per request.  [kwargs] are the URL
    path parameters; [object] is the attribute of that name, [None] while
    the instance has no such attribute (or holds Python's [None], as
    [CreateView.post] leaves it before the form is handled). *)
Record Self (O : Type) : Type :=
  { kwargs : gmap string string; object : option O }.
Arguments kwargs {O} _.
Arguments object {O} _.

Definition Store (O : Type) : Type := Self O * DB.

(** Runs a database operation in the store of a view. *)
Definition on_db {O A} (m : M DB A) : M (Store O) A := λ s,
  let (r, db') := m (snd s) in (r, (fst s, db')).

(** [self.kwargs.get(key)]. *)
Definition kwargs_get {O} (key : string) : M (Store O) (option string) :=
  gets (λ s, kwargs (fst s) !! key).

(** [hasattr(self, 'object')] together with the attribute when present. *)
Definition getattr_object {O} : M (Store O) (option O) :=
  gets (λ s, object (fst s)).

(** [self.object = value]. *)
Definition setattr_object {O} (value : O) : M (Store O) unit :=
  modify (λ s, ({| kwargs := kwargs (fst s); object := Some value |}, snd s)).

(** [self.object.<attribute>]: fails on an instance without the attribute. *)
Definition self_object {O} : M (Store O) O :=
  o ← getattr_object;
  match o with
  | Some value => mret value
  | None => raise (AttributeError "object")
  end.

(** ** HTML/Web views *)

Module DatasetCreateView.
Section View.
Context {model : DatasetModel}.

Definition template_name : string := "dataset/create.html".

(** Navigate to the newly created object. *)
Definition get_success_url : M (Store Dataset) string :=
  o ← self_object;
  mret (get_absolute_url o).

(** [CreateView.get_context_data]: the form, and the object under its two
    names once the view has one.  (The [view] entry every generic view adds
    is left out of the contexts throughout.) *)
Definition get_context_data (form : CreateDatasetForm)
  : M (Store Dataset) (gmap string CtxVal) :=
  o ← getattr_object;
  let context : gmap string CtxVal := {[ "form" := CCreateForm form ]} in
  match o with
  | Some d => mret (<["dataset" := CDataset d]>
                      (<["object" := CDataset d]> context))
  | None => mret context
  end.

(** [CreateView.form_valid]: saves the form, keeps the object and redirects
    to the success URL. *)
Definition super_form_valid (form : CreateDatasetForm)
  : M (Store Dataset) HttpResponse :=
  o ← on_db (CreateDatasetForm_save form);
  setattr_object o;;
  url ← get_success_url;
  mret (HttpResponseRedirect url).

(** [CreateView.form_invalid]: renders the form again. *)
Definition super_form_invalid (form : CreateDatasetForm)
  : M (Store Dataset) HttpResponse :=
  context ← get_context_data form;
  mret (TemplateResponse template_name context).

Definition form_valid (form : CreateDatasetForm)
  : M (Store Dataset) HttpResponse :=
  try_except (super_form_valid form) IntegrityError
    (let form := cd_add_error
       "A dataset with this name already exists, please choose another."
       form in
     super_form_invalid form).

End View.
End DatasetCreateView.

Module DataFileUploadView.
Section View.
Context {model : DatasetModel} {validation : UploadFormValidation}.

Definition template_name : string := "dataset/upload.html".

(** Returns the user back to the dataset view. *)
Definition get_success_url : M (Store DataFile) string :=
  o ← self_object;
  mret (get_absolute_url (df_dataset o)).

(** The call to [super] gives [FormView]'s context, which holds the form. *)
Definition get_context_data (form : DataFileUploadForm)
  : M (Store DataFile) (gmap string CtxVal) :=
  let context : gmap string CtxVal := {[ "form" := CUploadForm form ]} in
  o ← getattr_object;
  match o with
  | Some o => mret (<["dataset" := CDataFile o]> context)
  | None =>
      account ← kwargs_get "account";
      slug ← kwargs_get "slug";
      d ← on_db (Dataset_objects_get account slug);
      mret (<["dataset" := CDataset d]> context)
  end.

(** [FormView.form_valid]: redirects to the success URL. *)
Definition super_form_valid (form : DataFileUploadForm)
  : M (Store DataFile) HttpResponse :=
  url ← get_success_url;
  mret (HttpResponseRedirect url).

(** [FormView.form_invalid]: renders the form again. *)
Definition super_form_invalid (form : DataFileUploadForm)
  : M (Store DataFile) HttpResponse :=
  context ← get_context_data form;
  mret (TemplateResponse template_name context).

(** If there is an IntegrityError, then returns form invalid. *)
Definition form_valid (form : DataFileUploadForm)
  : M (Store DataFile) HttpResponse :=
  try_except
    (o ← on_db (DataFileUploadForm_save form);
     setattr_object o;;
     super_form_valid form)
    IntegrityError
    (let form := uf_add_error
       "Duplicate file detected! Cannot upload the same file twice."
       form in
     super_form_invalid form).

(** [FormView.get]: renders the form. *)
Definition get (form : DataFileUploadForm) : M (Store DataFile) HttpResponse :=
  context ← get_context_data form;
  mret (TemplateResponse template_name context).

(** [FormView.post]: validates the bound form and dispatches on the
    outcome. *)
Definition post (form : DataFileUploadForm) : M (Store DataFile) HttpResponse :=
  valid ← on_db (gets (upload_is_valid form));
  if valid : bool then form_valid form else super_form_invalid form.

End View.
End DataFileUploadView.

Module DatasetListView.

Definition template_name : string := "dataset/list.html".
Definition paginate_by : Z := 25.
Definition context_object_name : string := "datasets".

(** [Paginator.num_pages], an empty first page being allowed. *)
Definition num_pages (count : Z) : Z :=
  (Z.max 1 count + paginate_by - 1) / paginate_by.

(** [ListView.get_context_data] for the page asked for: the rows of the page
    under [object_list] and under the context object name, and whether there
    are other pages (the paginator and page objects themselves are left
    out).  A page number out of range ends in [Http404]. *)
Definition super_get_context_data (page : Z)
  : M DB (gmap string CtxVal) :=
  queryset ← gets datasets;
  let pages := num_pages (queryset_count queryset) in
  if bool_decide (page < 1 ∨ pages < page) then raise Http404
  else
    let bottom := Z.to_nat ((page - 1) * paginate_by) in
    let rows := take (Z.to_nat paginate_by) (drop bottom queryset) in
    let context : gmap string CtxVal :=
      {[ "is_paginated" := CBool (bool_decide (1 < pages));
         "object_list" := CDatasets rows ]} in
    mret (<[context_object_name := CDatasets rows]> context).

Definition get_context_data (page : Z) : M DB (gmap string CtxVal) :=
  context ← super_get_context_data page;
  num_datasets ← Dataset_objects_count;
  let context := <["num_datasets" := CInt num_datasets]> context in
  if bool_decide (0 < num_datasets)
  then
    latest ← Dataset_objects_latest;
    mret (<["latest_dataset" := CTime (ds_created latest)]> context)
  else mret context.

(** [ListView.get]. *)
Definition get (page : Z) : M DB HttpResponse :=
  context ← get_context_data page;
  mret (TemplateResponse template_name context).

End DatasetListView.

Module DatasetDetailView.

(** The class attributes the panel subclasses override. *)
Record Attrs : Type := { template_name : string; panel_name : string }.

Definition DatasetDetailView : Attrs :=
  {| template_name := "dataset/detail/files.html"; panel_name := "files" |}.
Definition DatasetSchemaView : Attrs :=
  {| template_name := "dataset/detail/schema.html"; panel_name := "schema" |}.
Definition DatasetExploreView : Attrs :=
  {| template_name := "dataset/detail/explore.html";
     panel_name := "explore" |}.
Definition DatasetSettingsView : Attrs :=
  {| template_name := "dataset/detail/settings.html";
     panel_name := "settings" |}.

Definition context_object_name : string := "dataset".

(** [int(s)], as the lookup of a primary key converts its value: white
    space around, an optional sign, then decimal digits, at least one (over
    ASCII). *)
Definition digit (c : Ascii.ascii) : option Z :=
  let n := Z.of_N (Ascii.N_of_ascii c) in
  if bool_decide (48 ≤ n ≤ 57) then Some (n - 48) else None.

Definition is_space (c : Ascii.ascii) : bool :=
  let n := Z.of_N (Ascii.N_of_ascii c) in
  bool_decide (9 ≤ n ≤ 13 ∨ 28 ≤ n ≤ 32).

Fixpoint spaces_only (s : string) : bool :=
  match s with
  | EmptyString => true
  | String c rest => is_space c && spaces_only rest
  end.

Fixpoint lstrip (s : string) : string :=
  match s with
  | EmptyString => EmptyString
  | String c rest => if is_space c then lstrip rest else s
  end.

(** The digits of a literal, up to the white space that ends it; [seen]
    says whether a digit has been read. *)
Fixpoint digits (seen : bool) (acc : Z) (s : string) : option Z :=
  match s with
  | EmptyString => if seen then Some acc else None
  | String c rest =>
      match digit c with
      | Some d => digits true (10 * acc + d) rest
      | None => if seen && spaces_only s then Some acc else None
      end
  end.

Definition int_of_string (s : string) : option Z :=
  match lstrip s with
  | EmptyString => None
  | String c rest =>
      let n := Z.of_N (Ascii.N_of_ascii c) in
      if bool_decide (n = 43) then digits false 0 rest
      else if bool_decide (n = 45) then Z.opp <$> digits false 0 rest
      else digits false 0 (String c rest)
  end.

(** Returns a dataset based on username/dataset_name arguments. *)
Definition get_queryset : M (Store Dataset) (list Dataset) :=
  account ← kwargs_get "account";
  rows ← on_db (gets datasets);
  mret (filter_owner__name account rows).

(** [DetailView.get_object], with [slug_field = "name"]: narrows the
    queryset by the primary key or else by the slug of the path, and turns
    an empty result into [Http404]. *)
Definition get_object : M (Store Dataset) Dataset :=
  queryset ← get_queryset;
  pk ← kwargs_get "pk";
  slug ← kwargs_get "slug";
  queryset ← match pk with
             | Some pk =>
                 match int_of_string pk with
                 | Some n => mret (filter (λ d, ds_pk d = n) queryset)
                 | None => raise (ValueError pk)
                 end
             | None => mret queryset
             end;
  let queryset := match slug, pk with
                  | Some _, None => filter_name slug queryset
                  | _, _ => queryset
                  end in
  match pk, slug with
  | None, None => raise (AttributeError "pk or slug")
  | _, _ => try_except (queryset_get queryset) DoesNotExist (raise Http404)
  end.

Section View.
Variable cls : Attrs.

(** The call to [super] gives [DetailView]'s context: the object, under
    [object] and under the context object name. *)
Definition get_context_data : M (Store Dataset) (gmap string CtxVal) :=
  o ← self_object;
  let context : gmap string CtxVal :=
    <[context_object_name := CDataset o]> {[ "object" := CDataset o ]} in
  mret (<["panel_name" := CStr (panel_name cls)]> context).

(** [DetailView.get]. *)
Definition get : M (Store Dataset) HttpResponse :=
  o ← get_object;
  setattr_object o;;
  context ← get_context_data;
  mret (TemplateResponse (template_name cls) context).

End View.
End DatasetDetailView.

(** ** JSON/API views *)

Module StarredDatasetsViewSet.
Section View.
Context {serializer : StarSerializer}.

(** [self.queryset.filter] with its keyword lookups, evaluated anew at each use. *)
Definition queryset_filter (P : StarredDataset → Prop)
    `{∀ s, Decision (P s)} : M DB (list StarredDataset) :=
  gets (λ db, filter P (stars db)).

(** Datasets starred by current user.  (The method is [list]; the name of
    the list type is kept free.) *)
Definition list_ (request : Request) : M DB HttpResponse :=
  let user_id := account_id (user request) in
  datasets_stars ← queryset_filter (λ star, star_user_id star = user_id);
  let serialized_stars := serializer_data <$> datasets_stars in
  mret (Response (JList serialized_stars)).

(** Star some dataset for current user. *)
Definition create (request : Request) : M DB HttpResponse :=
  dataset_id ← getitem (data request) "dataset_id";
  let user_id := account_id (user request) in
  let serialized_data :=
    {| sd_dataset := dataset_id; sd_user_id := user_id |} in
  valid ← gets (is_valid serialized_data);
  if valid : bool
  then
    StarredDatasetSerializer_save serialized_data;;
    mret (Response (JDict [("status", JStr "starred status created")]))
  else raise Http404.

(** [dataset_starred.delete()], where the receiver may be [None]. *)
Definition delete (dataset_starred : option StarredDataset) : M DB unit :=
  match dataset_starred with
  | Some star => StarredDataset_delete star
  | None => raise (AttributeError "delete")
  end.

(** Delete star for some dataset set by user. *)
Definition destroy (request : Request) : M DB HttpResponse :=
  let user_id := account_id (user request) in
  dataset_id ← getitem (data request) "dataset_id";
  matching ← queryset_filter (λ star, star_user_id star = user_id
                                      ∧ star_dataset_id star = dataset_id);
  let dataset_starred := queryset_first matching in
  delete dataset_starred;;
  mret (Response (JDict [("status", JStr "starred status deleted")])).

End View.
End StarredDatasetsViewSet.

(** The star that [create] stores for a request with [dataset_id = d]. *)
Definition created_star (request : Request) (d : Z) (db : DB)
  : StarredDataset :=
  {| star_pk := next_star_pk db;
     star_user_id := account_id (user request);
     star_dataset_id := d |}.

(** ** Sample collaborators and data, for the instances below *)

Definition sample_model : DatasetModel :=
  {| get_absolute_url d :=
       "/" +:+ account_name (ds_owner d) +:+ "/" +:+ ds_name d +:+ "/" |}.

(** A serializer that accepts a star when its dataset exists. *)
Definition sample_serializer : StarSerializer :=
  {| serializer_data star :=
       JDict [("dataset", JInt (star_dataset_id star));
              ("user_id", JInt (star_user_id star))];
     is_valid d db :=
       bool_decide (Exists (λ ds, ds_pk ds = sd_dataset d) (datasets db)) |}.

Definition sample_validation : UploadFormValidation :=
  {| upload_is_valid form db :=
       bool_decide (uf_dataset form ∈ datasets db) |}.

Definition alice : Account := {| account_id := 7; account_name := "alice" |}.
Definition bob : Account := {| account_id := 8; account_name := "bob" |}.

Definition iris : Dataset :=
  {| ds_pk := 5; ds_owner := alice; ds_name := "iris"; ds_created := 100 |}.
Definition wine : Dataset :=
  {| ds_pk := 6; ds_owner := bob; ds_name := "wine"; ds_created := 250 |}.

Definition iris_csv : DataFile :=
  {| df_pk := 1; df_dataset := iris; df_data := "5.1,3.5,1.4,0.2" |}.

(** Two upload forms for iris: the content it already has, and new
    content. *)
Definition iris_again : DataFileUploadForm :=
  {| uf_request := {| user := alice; data := ∅; now := 300 |};
     uf_dataset := iris; uf_data := "5.1,3.5,1.4,0.2"; uf_errors := [] |}.
Definition iris_more : DataFileUploadForm :=
  {| uf_request := {| user := alice; data := ∅; now := 300 |};
     uf_dataset := iris; uf_data := "4.9,3.0,1.4,0.2"; uf_errors := [] |}.

(** New content whose form names bob's wine. *)
Definition wine_more : DataFileUploadForm :=
  {| uf_request := {| user := alice; data := ∅; now := 300 |};
     uf_dataset := wine; uf_data := "7.4,0.7,0.0,1.9"; uf_errors := [] |}.

Definition sample_db : DB :=
  {| datasets := [iris; wine];
     datafiles := [iris_csv];
     stars := [ {| star_pk := 1; star_user_id := 8; star_dataset_id := 5 |};
                {| star_pk := 2; star_user_id := 7; star_dataset_id := 5 |};
                {| star_pk := 3; star_user_id := 7; star_dataset_id := 6 |} ];
     star_seq := 3 |}.

Definition empty_db : DB :=
  {| datasets := []; datafiles := []; stars := []; star_seq := 0 |}.

Definition request_of (u : Account) (body : gmap string Z) : Request :=
  {| user := u; data := body; now := 300 |}.

(** A view instance as a request finds it: path parameters, no [object]. *)
Definition fresh {O} (account slug : string) : Self O :=
  {| kwargs := {[ "account" := account; "slug" := slug ]}; object := None |}.

(** * Properties *)

(** ** Running handlers *)

Ltac unfold_monad :=
  unfold run, self_object, getattr_object, setattr_object, kwargs_get,
    getitem, on_db, try_except, raise, gets, modify in *;
  unfold mbind, M_bind, mret, M_ret in *;
  cbv beta in *.

Lemma next_pk_above {A} (pk : A → Z) (rows : list A) (row : A) :
  row ∈ rows → pk row < next_pk pk rows.
Proof.
  unfold next_pk. induction rows as [|r rows IH]; intros Hin.
  - by apply elem_of_nil in Hin.
  - rewrite fmap_cons. cbn [foldr].
    apply elem_of_cons in Hin as [->|Hin].
    + lia.
    + specialize (IH Hin). lia.
Qed.

Lemma next_pk_fresh {A} (pk : A → Z) (rows : list A) :
  next_pk pk rows ∉ (pk <$> rows).
Proof.
  intros Hin. apply list_elem_of_fmap in Hin as (row & Heq & Hin).
  apply (next_pk_above pk) in Hin. lia.
Qed.

Lemma next_star_pk_above (db : DB) (star : StarredDataset) :
  star ∈ stars db → star_pk star < next_star_pk db.
Proof.
  intros Hin. pose proof (next_pk_above star_pk (stars db) star Hin).
  unfold next_star_pk, next_pk in *. lia.
Qed.

Lemma next_star_pk_fresh (db : DB) :
  next_star_pk db ∉ (star_pk <$> stars db).
Proof.
  intros Hin. apply list_elem_of_fmap in Hin as (star & Heq & Hin).
  apply next_star_pk_above in Hin. lia.
Qed.

Lemma next_star_pk_after_seq (db : DB) : star_seq db < next_star_pk db.
Proof. unfold next_star_pk. lia. Qed.

(** The first row of a filtered list splits the list around it. *)
Lemma head_filter_split {A} (P : A → Prop) `{∀ x, Decision (P x)}
    (l : list A) :
  Exists P l →
  ∃ pre x post, l = pre ++ x :: post ∧ P x ∧ Forall (λ y, ¬ P y) pre
                ∧ head (filter P l) = Some x.
Proof.
  induction l as [|a l IH]; intros HE.
  - by apply Exists_nil in HE.
  - destruct (decide (P a)) as [Ha|Ha].
    + exists [], a, l. rewrite filter_cons_True by done. by repeat split.
    + apply Exists_cons in HE as [?|HE]; [done|].
      destruct (IH HE) as (pre & x & post & -> & Hx & Hpre & Hhd).
      exists (a :: pre), x, post. rewrite filter_cons_False by done.
      repeat split; auto.
Qed.

Lemma head_filter_None {A} (P : A → Prop) `{∀ x, Decision (P x)}
    (l : list A) :
  ¬ Exists P l → filter P l = [].
Proof.
  intros HE. induction l as [|a l IH]; [done|].
  rewrite filter_cons_False.
  - apply IH. intros ?. apply HE. by apply Exists_cons_tl.
  - intros ?. apply HE. by apply Exists_cons_hd.
Qed.

Lemma filter_all {A} (P : A → Prop) `{∀ x, Decision (P x)} (l : list A) :
  Forall P l → filter P l = l.
Proof.
  induction 1 as [|x l Hx _ IH]; [done|].
  rewrite filter_cons_True by done. by rewrite IH.
Qed.

(** Deleting by a key that identifies one row removes exactly that row. *)
Lemma delete_by_pk {A} (pk : A → Z) (pre post : list A) (x : A) :
  NoDup (pk <$> (pre ++ x :: post)) →
  filter (λ y, pk y ≠ pk x) (pre ++ x :: post) = pre ++ post.
Proof.
  rewrite fmap_app, fmap_cons. intros Hnd.
  apply NoDup_app in Hnd as (_ & Hdisj & Hnd).
  apply NoDup_cons in Hnd as (Hpost & _).
  rewrite filter_app, filter_cons_False by (intros Hne; by apply Hne).
  f_equal; apply filter_all, Forall_forall.
  - intros y Hy Heq. apply (Hdisj (pk y)).
    + apply list_elem_of_fmap. eauto.
    + rewrite Heq. apply elem_of_cons. by left.
  - intros y Hy Heq. apply Hpost. rewrite <- Heq.
    apply list_elem_of_fmap. eauto.
Qed.

(** ** The star resource *)

Section Stars.
Context {serializer : StarSerializer}.
Import StarredDatasetsViewSet.

(** C10: a star-create or star-destroy request whose body has no
    [dataset_id] key ends in [KeyError], whatever the serializer would have
    said, and leaves the database as it was. *)
Theorem missing_dataset_id_is_KeyError (request : Request) (db : DB) :
  data request !! "dataset_id" = None →
  run (create request) db = (inl (KeyError "dataset_id"), db)
  ∧ run (destroy request) db = (inl (KeyError "dataset_id"), db).
Proof.
  intros Hkey. unfold create, destroy. unfold_monad. by rewrite Hkey.
Qed.

(** C8: the star list is the serialization, row by row and in order, of the
    stars whose user is the requesting user: each of that user's stars is in
    it and no star of another user is. *)
Theorem list_is_own_stars (request : Request) (db : DB) :
  ∃ own : list StarredDataset,
    run (list_ request) db
      = (inr (Response (JList (serializer_data <$> own))), db)
    ∧ own = filter (λ s, star_user_id s = account_id (user request)) (stars db)
    ∧ sublist own (stars db)
    ∧ (∀ s, s ∈ stars db → star_user_id s = account_id (user request) →
            s ∈ own)
    ∧ (∀ s, s ∈ own → star_user_id s = account_id (user request)
                      ∧ s ∈ stars db).
Proof.
  eexists. split; [reflexivity|]. split; [reflexivity|].
  split; [apply sublist_filter; apply _|].
  split.
  - intros s Hin Hu. by apply list_elem_of_filter.
  - intros s Hin. by apply list_elem_of_filter in Hin.
Qed.

(** C3, as the code has it: with [dataset_id] in the body, a star-create
    request whose data the serializer rejects ends in [Http404], which the
    client sees as status 404, and stores nothing; one whose data it accepts,
    for a user who has no star for the dataset yet, appends one star for
    (user, dataset) under a key the table never had, and answers
    [{"status": "starred status created"}]. *)
Theorem create_saves_new_star_or_404 (request : Request) (d : Z) (db : DB) :
  data request !! "dataset_id" = Some d →
  let u := account_id (user request) in
  let sd := {| sd_dataset := d; sd_user_id := u |} in
  (is_valid sd db = false →
     run (create request) db = (inl Http404, db)
     ∧ status_of_exception Http404 = 404)
  ∧ (is_valid sd db = true →
     ¬ duplicate_star sd db →
     ∃ star, star_user_id star = u ∧ star_dataset_id star = d
       ∧ (star_pk star ∉ star_pk <$> stars db)
       ∧ star_seq db < star_pk star
       ∧ run (create request) db
         = (inr (Response (JDict [("status", JStr "starred status created")])),
            set_star_seq (star_pk star)
              (set_stars (stars db ++ [star]) db))).
Proof.
  intros Hkey u sd. subst u sd. unfold create. unfold_monad. rewrite Hkey.
  split; intros Hv; rewrite Hv.
  - done.
  - intros Hnew. unfold StarredDatasetSerializer_save. unfold_monad.
    rewrite bool_decide_eq_false_2 by done. simpl.
    exists (created_star request d db).
    split; [done|]. split; [done|]. split; [apply next_star_pk_fresh|].
    split; [apply next_star_pk_after_seq|done].
Qed.

(** C1: with [dataset_id = d] in the body of a star-destroy request by user
    [u]: when some star has (user_id, dataset_id) = (u, d), the first such
    row is deleted (the rows with its key go, which is that row alone when
    keys are unique) and the answer is [{"status": "starred status deleted"}];
    when none has, the request ends in [AttributeError] and the database is
    as it was.  So the request raises exactly when no star matches. *)
Theorem destroy_deletes_first_or_raises (request : Request) (d : Z) (db : DB) :
  data request !! "dataset_id" = Some d →
  let P := λ s, star_user_id s = account_id (user request)
                ∧ star_dataset_id s = d in
  (Exists P (stars db) →
     ∃ pre star post,
       stars db = pre ++ star :: post ∧ P star ∧ Forall (λ s, ¬ P s) pre
       ∧ run (destroy request) db
         = (inr (Response (JDict [("status", JStr "starred status deleted")])),
            set_stars (filter (λ s, star_pk s ≠ star_pk star) (stars db)) db)
       ∧ (NoDup (star_pk <$> stars db) →
          filter (λ s, star_pk s ≠ star_pk star) (stars db) = pre ++ post))
  ∧ (¬ Exists P (stars db) →
     run (destroy request) db = (inl (AttributeError "delete"), db))
  ∧ ((∃ e, fst (run (destroy request) db) = inl e) ↔ ¬ Exists P (stars db)).
Proof.
  intros Hkey P.
  assert (Hyes : Exists P (stars db) →
     ∃ pre star post,
       stars db = pre ++ star :: post ∧ P star ∧ Forall (λ s, ¬ P s) pre
       ∧ run (destroy request) db
         = (inr (Response (JDict [("status", JStr "starred status deleted")])),
            set_stars (filter (λ s, star_pk s ≠ star_pk star) (stars db)) db)
       ∧ (NoDup (star_pk <$> stars db) →
          filter (λ s, star_pk s ≠ star_pk star) (stars db) = pre ++ post)).
  { intros HE. destruct (head_filter_split P (stars db) HE)
      as (pre & star & post & Hsplit & HP & Hpre & Hhd).
    exists pre, star, post.
    split; [done|]. split; [done|]. split; [done|]. split.
    - unfold destroy, queryset_filter, queryset_first, delete,
        StarredDataset_delete. unfold_monad. rewrite Hkey. simpl.
      fold P. by rewrite Hhd.
    - intros Hnd. rewrite Hsplit in *. by apply delete_by_pk. }
  assert (Hno : ¬ Exists P (stars db) →
     run (destroy request) db = (inl (AttributeError "delete"), db)).
  { intros HE. unfold destroy, queryset_filter, queryset_first, delete.
    unfold_monad. rewrite Hkey. simpl. fold P.
    by rewrite (head_filter_None P _ HE). }
  split; [done|]. split; [done|]. split.
  - intros [e He] HE. destruct (Hyes HE) as (? & ? & ? & _ & _ & _ & Hrun & _).
    by rewrite Hrun in He.
  - intros HE. rewrite (Hno HE). eauto.
Qed.

End Stars.

(** The three statements above, at a request of alice (user 7) on the sample
    database. *)
Lemma missing_dataset_id_is_KeyError_witness :
  data (request_of alice ∅) !! "dataset_id" = None
  ∧ run (StarredDatasetsViewSet.create (serializer := sample_serializer)
           (request_of alice ∅)) sample_db
      = (inl (KeyError "dataset_id"), sample_db)
  ∧ run (StarredDatasetsViewSet.destroy (request_of alice ∅)) sample_db
      = (inl (KeyError "dataset_id"), sample_db).
Proof.
  split; [reflexivity|].
  apply (missing_dataset_id_is_KeyError (serializer := sample_serializer)
           (request_of alice ∅) sample_db).
  reflexivity.
Defined.

Lemma bob_has_not_starred_wine :
  ¬ duplicate_star {| sd_dataset := 6; sd_user_id := 8 |} sample_db.
Proof. apply (bool_decide_unpack _). vm_compute. exact I. Qed.

(** Bob stars dataset 6, which he has not starred. *)
Lemma create_saves_new_star_or_404_witness :
  data (request_of bob {[ "dataset_id" := 6 ]}) !! "dataset_id" = Some 6
  ∧ is_valid (StarSerializer := sample_serializer)
      {| sd_dataset := 6; sd_user_id := 8 |} sample_db = true
  ∧ ¬ duplicate_star {| sd_dataset := 6; sd_user_id := 8 |} sample_db
  ∧ ∃ star, star_user_id star = 8 ∧ star_dataset_id star = 6
      ∧ (star_pk star ∉ star_pk <$> stars sample_db)
      ∧ star_seq sample_db < star_pk star
      ∧ run (StarredDatasetsViewSet.create (serializer := sample_serializer)
               (request_of bob {[ "dataset_id" := 6 ]})) sample_db
        = (inr (Response (JDict [("status", JStr "starred status created")])),
           set_star_seq (star_pk star)
             (set_stars (stars sample_db ++ [star]) sample_db)).
Proof.
  split; [reflexivity|]. split; [reflexivity|].
  split; [exact bob_has_not_starred_wine|].
  apply (create_saves_new_star_or_404 (serializer := sample_serializer)
           (request_of bob {[ "dataset_id" := 6 ]}) 6 sample_db);
    [reflexivity|reflexivity|exact bob_has_not_starred_wine].
Defined.

(** C3, as stated, fails: alice stars dataset 6, which the sample serializer
    accepts and which she has starred already; the save is rejected, so
    valid data is not always saved. *)
Lemma create_valid_data_not_always_saved :
  ¬ (∀ (serializer : StarSerializer) (request : Request) (d : Z) (db : DB),
       data request !! "dataset_id" = Some d →
       is_valid {| sd_dataset := d; sd_user_id := account_id (user request) |}
         db = true →
       ∃ db',
         run (StarredDatasetsViewSet.create request) db
         = (inr (Response (JDict [("status", JStr "starred status created")])),
            db')).
Proof.
  intros Hall.
  destruct (Hall sample_serializer (request_of alice {[ "dataset_id" := 6 ]})
              6 sample_db) as [db' Hrun]; [reflexivity..|].
  vm_compute in Hrun. discriminate.
Qed.

Example create_for_starred_pair :
  run (StarredDatasetsViewSet.create (serializer := sample_serializer)
         (request_of alice {[ "dataset_id" := 6 ]})) sample_db
  = (inl IntegrityError, sample_db).
Proof. reflexivity. Qed.

Lemma destroy_deletes_first_or_raises_witness :
  data (request_of alice {[ "dataset_id" := 5 ]}) !! "dataset_id" = Some 5
  ∧ ∃ pre star post,
      stars sample_db = pre ++ star :: post
      ∧ (star_user_id star = 7 ∧ star_dataset_id star = 5)
      ∧ Forall (λ s, ¬ (star_user_id s = 7 ∧ star_dataset_id s = 5)) pre
      ∧ run (StarredDatasetsViewSet.destroy
               (request_of alice {[ "dataset_id" := 5 ]})) sample_db
        = (inr (Response (JDict [("status", JStr "starred status deleted")])),
           set_stars (filter (λ s, star_pk s ≠ star_pk star)
                        (stars sample_db)) sample_db)
      ∧ (NoDup (star_pk <$> stars sample_db) →
         filter (λ s, star_pk s ≠ star_pk star) (stars sample_db)
           = pre ++ post).
Proof.
  split; [reflexivity|].
  apply (destroy_deletes_first_or_raises
           (request_of alice {[ "dataset_id" := 5 ]}) 5 sample_db);
    [reflexivity|].
  apply Exists_cons_tl, Exists_cons_hd. split; reflexivity.
Defined.

(** ** The dataset list *)

Lemma latest_by_None {A} (key : A → Z) (rows : list A) :
  latest_by key rows = None ↔ rows = [].
Proof.
  destruct rows as [|row rest]; [done|]. simpl.
  destruct (latest_by key rest); [destruct (key row <? _)|]; done.
Qed.

(** The row [latest_by] picks is a row of the queryset and no row has a
    greater key. *)
Lemma latest_by_Some {A} (key : A → Z) (rows : list A) (best : A) :
  latest_by key rows = Some best →
  best ∈ rows ∧ ∀ row, row ∈ rows → key row ≤ key best.
Proof.
  revert best. induction rows as [|r rest IH]; intros best Heq; [done|].
  simpl in Heq. destruct (latest_by key rest) as [b|] eqn:Hrest.
  - destruct (IH b eq_refl) as [Hin Hmax].
    destruct (key r <? key b) eqn:Hlt; inversion Heq; subst best.
    + apply Z.ltb_lt in Hlt. split; [by apply elem_of_cons; right|].
      intros row [->|Hrow]%elem_of_cons; [lia|by apply Hmax].
    + apply Z.ltb_ge in Hlt. split; [by apply elem_of_cons; left|].
      intros row [->|Hrow]%elem_of_cons; [lia|].
      specialize (Hmax row Hrow). lia.
  - inversion Heq; subst best. apply latest_by_None in Hrest as ->.
    split; [by apply elem_of_cons; left|].
    intros row [->|Hrow]%elem_of_cons; [lia|by apply elem_of_nil in Hrow].
Qed.

(** [latest()] fails on the empty table, and only there. *)
Lemma latest_empty_raises (db : DB) :
  datasets db = [] →
  run Dataset_objects_latest db = (inl DoesNotExist, db).
Proof.
  intros Hnil. unfold Dataset_objects_latest. unfold_monad. by rewrite Hnil.
Qed.

Lemma num_pages_pos (count : Z) : 1 ≤ DatasetListView.num_pages count.
Proof.
  unfold DatasetListView.num_pages, DatasetListView.paginate_by.
  apply Z.div_le_lower_bound; lia.
Qed.

Lemma list_context_of_page (page : Z) (db : DB) :
  1 ≤ page ≤ DatasetListView.num_pages (queryset_count (datasets db)) →
  ∃ context,
    run (DatasetListView.get_context_data page) db = (inr context, db)
    ∧ context !! "num_datasets"
      = Some (CInt (Z.of_nat (length (datasets db))))
    ∧ (0 < Z.of_nat (length (datasets db)) →
       ∃ d, d ∈ datasets db
         ∧ (∀ d', d' ∈ datasets db → ds_created d' ≤ ds_created d)
         ∧ context !! "latest_dataset" = Some (CTime (ds_created d)))
    ∧ (length (datasets db) = 0%nat → context !! "latest_dataset" = None).
Proof.
  destruct db as [rows files marks seq]. cbn [datasets]. intros Hpage.
  unfold DatasetListView.get_context_data,
    DatasetListView.super_get_context_data, Dataset_objects_count,
    Dataset_objects_latest, queryset_count in *.
  unfold_monad. cbn [datasets].
  rewrite bool_decide_eq_false_2 by lia.
  destruct rows as [|row rest].
  - simpl. eexists. split; [reflexivity|].
    split; [by simplify_map_eq|]. split; [lia|].
    intros _. by simplify_map_eq.
  - rewrite bool_decide_eq_true_2 by (simpl; lia).
    cbv beta. cbn [datasets].
    destruct (latest_by ds_created (row :: rest)) as [best|] eqn:Hbest.
    + apply latest_by_Some in Hbest as [Hin Hmax].
      eexists. split; [reflexivity|].
      split; [by simplify_map_eq|]. split.
      * intros _. exists best. repeat split; [done..|]. by simplify_map_eq.
      * simpl. lia.
    + by apply latest_by_None in Hbest.
Qed.

(** A page the paginator does not have ends the request in [Http404]. *)
Lemma list_context_no_page (page : Z) (db : DB) :
  ¬ (1 ≤ page ≤ DatasetListView.num_pages (queryset_count (datasets db))) →
  run (DatasetListView.get_context_data page) db = (inl Http404, db).
Proof.
  intros Hpage.
  unfold DatasetListView.get_context_data,
    DatasetListView.super_get_context_data.
  unfold_monad. by rewrite bool_decide_eq_true_2 by lia.
Qed.

(** C4: for a dataset-list request (of a page the paginator has, the first
    one always being there), [num_datasets] is the number of Dataset rows;
    with at least one row, [latest_dataset] is the creation time of a dataset
    none was created after; with none, the key is absent.  [latest()] is not
    asked of an empty table: no request ends in its [DoesNotExist]. *)
Theorem list_context_counts_and_latest (page : Z) (db : DB) :
  fst (run (DatasetListView.get_context_data page) db) ≠ inl DoesNotExist
  ∧ 1 ≤ DatasetListView.num_pages (queryset_count (datasets db))
  ∧ (1 ≤ page ≤ DatasetListView.num_pages (queryset_count (datasets db)) →
     ∃ context,
       run (DatasetListView.get_context_data page) db = (inr context, db)
       ∧ context !! "num_datasets"
         = Some (CInt (Z.of_nat (length (datasets db))))
       ∧ (0 < Z.of_nat (length (datasets db)) →
          ∃ d, d ∈ datasets db
            ∧ (∀ d', d' ∈ datasets db → ds_created d' ≤ ds_created d)
            ∧ context !! "latest_dataset" = Some (CTime (ds_created d)))
       ∧ (length (datasets db) = 0%nat →
          context !! "latest_dataset" = None)).
Proof.
  split; [|split; [apply num_pages_pos|apply list_context_of_page]].
  destruct (decide (1 ≤ page
    ≤ DatasetListView.num_pages (queryset_count (datasets db)))) as [Hp|Hp].
  - destruct (list_context_of_page page db Hp) as (context & -> & _). done.
  - by rewrite (list_context_no_page page db Hp).
Qed.

Lemma list_context_counts_and_latest_witness :
  1 ≤ 1 ≤ DatasetListView.num_pages (queryset_count (datasets sample_db))
  ∧ ∃ context,
      run (DatasetListView.get_context_data 1) sample_db
        = (inr context, sample_db)
      ∧ context !! "num_datasets" = Some (CInt 2)
      ∧ (0 < 2 →
         ∃ d, d ∈ datasets sample_db
           ∧ (∀ d', d' ∈ datasets sample_db → ds_created d' ≤ ds_created d)
           ∧ context !! "latest_dataset" = Some (CTime (ds_created d)))
      ∧ (2%nat = 0%nat → context !! "latest_dataset" = None).
Proof.
  split; [vm_compute; split; discriminate|].
  apply (list_context_counts_and_latest 1 sample_db).
  vm_compute; split; discriminate.
Defined.

(** The list of an empty database and of the sample one. *)
Example list_context_empty :
  run (DatasetListView.get_context_data 1) empty_db
  = (inr (<["num_datasets" := CInt 0]>
            (<["datasets" := CDatasets []]>
               {[ "is_paginated" := CBool false;
                  "object_list" := CDatasets [] ]})), empty_db).
Proof. reflexivity. Qed.

Example list_context_sample :
  match fst (run (DatasetListView.get_context_data 1) sample_db) with
  | inr context =>
      context !! "num_datasets" = Some (CInt 2)
      ∧ context !! "latest_dataset" = Some (CTime 250)
  | inl _ => False
  end.
Proof. vm_compute. split; reflexivity. Qed.

(** ** Creating a dataset *)

Section Create.
Context {model : DatasetModel}.
Import DatasetCreateView.

(** The save of the create form is rejected exactly for a duplicate
    (owner, name), and then stores nothing. *)
Lemma create_save_rejects (form : CreateDatasetForm) (db : DB) :
  duplicate_name form db ↔
  run (CreateDatasetForm_save form) db = (inl IntegrityError, db).
Proof.
  unfold duplicate_name, CreateDatasetForm_save. unfold_monad.
  split; intros Hdup.
  - by rewrite bool_decide_eq_true_2.
  - destruct (bool_decide _) eqn:Hd; [by apply bool_decide_eq_true in Hd|].
    discriminate.
Qed.

(** C5: a dataset-create request whose save violates the uniqueness of
    (owner, name) gets the creation form back, with the non-field error
    "A dataset with this name already exists, please choose another." added
    to it, no exception and the database as it was; a request whose save
    violates nothing inserts exactly one Dataset row, owned by the
    requesting user and under a key no row had, and is redirected to that
    row's URL. *)
Theorem create_form_valid_outcomes (form : CreateDatasetForm)
    (self : Self Dataset) (db : DB) :
  object self = None →
  (duplicate_name form db →
     run (CreateDatasetForm_save form) db = (inl IntegrityError, db)
     ∧ run (form_valid form) (self, db)
       = (inr (TemplateResponse "dataset/create.html"
                 {[ "form" := CCreateForm
                      (cd_add_error
                         "A dataset with this name already exists, please choose another."
                         form) ]}),
          (self, db))
     ∧ "A dataset with this name already exists, please choose another."
         ∈ cd_errors
             (cd_add_error
                "A dataset with this name already exists, please choose another."
                form))
  ∧ (¬ duplicate_name form db →
     ∃ row,
       ds_owner row = user (cd_request form)
       ∧ ds_name row = cd_name form
       ∧ (ds_pk row ∉ ds_pk <$> datasets db)
       ∧ length (datasets db ++ [row]) = S (length (datasets db))
       ∧ run (form_valid form) (self, db)
         = (inr (HttpResponseRedirect (get_absolute_url row)),
            ({| kwargs := kwargs self; object := Some row |},
             set_datasets (datasets db ++ [row]) db))).
Proof.
  intros Hobj. split; intros Hdup.
  - split; [by apply create_save_rejects|]. split.
    + apply create_save_rejects in Hdup.
      unfold form_valid, super_form_valid, super_form_invalid,
        get_context_data. unfold_monad. cbn [fst snd].
      rewrite Hdup. cbn. by rewrite Hobj.
    + unfold cd_add_error. cbn. apply elem_of_app. right. by apply elem_of_cons; left.
  - eexists. split; [|split; [|split; [|split]]]; cycle 4.
    + unfold form_valid, super_form_valid, get_success_url,
        CreateDatasetForm_save. unfold_monad. cbn [fst snd].
      rewrite bool_decide_eq_false_2 by done. cbn. reflexivity.
    + done.
    + done.
    + cbn. apply next_pk_fresh.
    + rewrite length_app. cbn. lia.
Qed.

End Create.

(** Alice creates "wine" (free for her: the existing "wine" is bob's). *)
Lemma create_form_valid_outcomes_witness :
  object (fresh (O := Dataset) "alice" "new") = None
  ∧ ¬ duplicate_name
        {| cd_request := request_of alice ∅; cd_name := "wine";
           cd_errors := [] |} sample_db
  ∧ ∃ row,
      ds_owner row = alice
      ∧ ds_name row = "wine"
      ∧ (ds_pk row ∉ ds_pk <$> datasets sample_db)
      ∧ length (datasets sample_db ++ [row]) = S (length (datasets sample_db))
      ∧ run (DatasetCreateView.form_valid (model := sample_model)
               {| cd_request := request_of alice ∅; cd_name := "wine";
                  cd_errors := [] |})
            (fresh "alice" "new", sample_db)
        = (inr (HttpResponseRedirect
                  (get_absolute_url (DatasetModel := sample_model) row)),
           ({| kwargs := kwargs (fresh (O := Dataset) "alice" "new");
               object := Some row |},
            set_datasets (datasets sample_db ++ [row]) sample_db)).
Proof.
  assert (Hfree : ¬ duplicate_name
        {| cd_request := request_of alice ∅; cd_name := "wine";
           cd_errors := [] |} sample_db).
  { unfold duplicate_name. apply (bool_decide_unpack _). vm_compute. exact I. }
  split; [reflexivity|]. split; [exact Hfree|].
  apply (create_form_valid_outcomes (model := sample_model)
           {| cd_request := request_of alice ∅; cd_name := "wine";
              cd_errors := [] |} (fresh "alice" "new") sample_db);
    [reflexivity|exact Hfree].
Defined.

(** Creating the same (owner, name) twice: the second request gets the form
    back with the duplicate-name error, and no second row is stored. *)
Example create_twice :
  let form := {| cd_request := request_of alice ∅; cd_name := "wine";
                 cd_errors := [] |} in
  let first := run (DatasetCreateView.form_valid (model := sample_model) form)
                 (fresh "alice" "new", sample_db) in
  let second := run (DatasetCreateView.form_valid (model := sample_model) form)
                  (fresh "alice" "new", snd (snd first)) in
  fst first = inr (HttpResponseRedirect "/alice/wine/")
  ∧ length (datasets (snd (snd first))) = 3%nat
  ∧ fst second
    = inr (TemplateResponse "dataset/create.html"
             {[ "form" := CCreateForm
                  {| cd_request := request_of alice ∅; cd_name := "wine";
                     cd_errors :=
                       ["A dataset with this name already exists, please choose another."] |} ]})
  ∧ snd (snd second) = snd (snd first).
Proof. vm_compute. repeat split. Qed.

(** ** Uploading a file *)

(** What a successful lookup by (account, slug) returns. *)
Lemma Dataset_objects_get_Some (account slug : option string) (db db' : DB)
    (d : Dataset) :
  run (Dataset_objects_get account slug) db = (inr d, db') →
  db' = db ∧ d ∈ datasets db
  ∧ Some (account_name (ds_owner d)) = account ∧ Some (ds_name d) = slug.
Proof.
  unfold Dataset_objects_get, queryset_get. unfold_monad.
  destruct (filter_name slug (filter_owner__name account (datasets db)))
    as [|d0 [|d1 rest]] eqn:Hf; intros Heq; try discriminate.
  injection Heq as -> <-.
  assert (Hin : d ∈ filter_name slug
                      (filter_owner__name account (datasets db))).
  { rewrite Hf. by apply elem_of_cons; left. }
  unfold filter_name, filter_owner__name in Hin.
  apply list_elem_of_filter in Hin as [Hslug Hin].
  apply list_elem_of_filter in Hin as [Hacc Hin]. done.
Qed.

(** The lookup raises nothing but its two own exceptions, and writes
    nothing. *)
Lemma Dataset_objects_get_cases (account slug : option string) (db : DB) :
  (∃ d, run (Dataset_objects_get account slug) db = (inr d, db))
  ∨ run (Dataset_objects_get account slug) db = (inl DoesNotExist, db)
  ∨ run (Dataset_objects_get account slug) db
    = (inl MultipleObjectsReturned, db).
Proof.
  unfold Dataset_objects_get, queryset_get. unfold_monad.
  destruct (filter_name slug (filter_owner__name account (datasets db)))
    as [|d0 [|d1 rest]]; eauto.
Qed.

Lemma Dataset_objects_get_None (account slug : option string) (db : DB) :
  filter_name slug (filter_owner__name account (datasets db)) = [] →
  run (Dataset_objects_get account slug) db = (inl DoesNotExist, db).
Proof.
  intros Hf. unfold Dataset_objects_get, queryset_get. unfold_monad.
  by rewrite Hf.
Qed.

Section Upload.
Context {model : DatasetModel} {validation : UploadFormValidation}.
Import DataFileUploadView.

(** The context of an instance without [object] follows the lookup by the
    path parameters. *)
Lemma upload_context_fresh (form : DataFileUploadForm) (self : Self DataFile)
    (db : DB) :
  object self = None →
  run (get_context_data form) (self, db)
  = match run (Dataset_objects_get (kwargs self !! "account")
                 (kwargs self !! "slug")) db with
    | (inr d, _) =>
        (inr (<["dataset" := CDataset d]> {[ "form" := CUploadForm form ]}),
         (self, db))
    | (inl e, _) => (inl e, (self, db))
    end.
Proof.
  intros Hobj. unfold get_context_data. unfold_monad. cbn [fst snd].
  rewrite Hobj. cbn [fst snd].
  destruct (Dataset_objects_get_cases (kwargs self !! "account")
              (kwargs self !! "slug") db) as [[d Hd]|[Hd|Hd]];
    unfold run in Hd; by rewrite Hd.
Qed.

(** The context of an instance that has [object] holds that object. *)
Lemma upload_context_object (form : DataFileUploadForm) (self : Self DataFile)
    (db : DB) (o : DataFile) :
  object self = Some o →
  run (get_context_data form) (self, db)
  = (inr (<["dataset" := CDataFile o]> {[ "form" := CUploadForm form ]}),
     (self, db)).
Proof.
  intros Hobj. unfold get_context_data. unfold_monad. cbn [fst snd].
  by rewrite Hobj.
Qed.

Lemma upload_save_rejects (form : DataFileUploadForm) (db : DB) :
  duplicate_file form db ↔
  run (DataFileUploadForm_save form) db = (inl IntegrityError, db).
Proof.
  unfold DataFileUploadForm_save. unfold_monad.
  split; intros Hdup.
  - by rewrite bool_decide_eq_true_2.
  - destruct (bool_decide _) eqn:Hd; [by apply bool_decide_eq_true in Hd|].
    discriminate.
Qed.

(** A rejected save leaves the instance without [object], so the form is
    rendered again from the lookup's context. *)
Lemma upload_form_valid_duplicate (form : DataFileUploadForm)
    (self : Self DataFile) (db : DB) :
  duplicate_file form db →
  run (form_valid form) (self, db)
  = run (super_form_invalid
           (uf_add_error
              "Duplicate file detected! Cannot upload the same file twice."
              form)) (self, db).
Proof.
  intros Hdup%upload_save_rejects.
  unfold form_valid. unfold_monad. cbn [fst snd]. by rewrite Hdup.
Qed.

Lemma upload_form_valid_saved (form : DataFileUploadForm)
    (self : Self DataFile) (db : DB) :
  ¬ duplicate_file form db →
  let row := {| df_pk := next_pk df_pk (datafiles db);
                df_dataset := uf_dataset form; df_data := uf_data form |} in
  run (form_valid form) (self, db)
  = (inr (HttpResponseRedirect (get_absolute_url (uf_dataset form))),
     ({| kwargs := kwargs self; object := Some row |},
      set_datafiles (datafiles db ++ [row]) db)).
Proof.
  intros Hdup row.
  unfold form_valid, super_form_valid, get_success_url,
    DataFileUploadForm_save. unfold_monad. cbn [fst snd].
  by rewrite bool_decide_eq_false_2.
Qed.

End Upload.

Section UploadRequests.
Context {model : DatasetModel} {validation : UploadFormValidation}.
Import DataFileUploadView.

(** A page rendered by an instance without [object] shows the dataset the
    path resolves to. *)
Lemma upload_render_fresh (form : DataFileUploadForm) (self : Self DataFile)
    (db : DB) (template : string) (context : gmap string CtxVal)
    (st : Store DataFile) :
  object self = None →
  run (super_form_invalid form) (self, db)
  = (inr (TemplateResponse template context), st) →
  ∃ d, run (Dataset_objects_get (kwargs self !! "account")
              (kwargs self !! "slug")) db = (inr d, db)
    ∧ template = "dataset/upload.html"
    ∧ context = <["dataset" := CDataset d]> {[ "form" := CUploadForm form ]}
    ∧ st = (self, db).
Proof.
  intros Hobj. pose proof (upload_context_fresh form self db Hobj) as Hctx.
  unfold super_form_invalid. unfold_monad. rewrite Hctx.
  destruct (Dataset_objects_get_cases (kwargs self !! "account")
              (kwargs self !! "slug") db) as [[d Hd]|[Hd|Hd]];
    unfold run in Hd; rewrite Hd; intros Heq; try discriminate.
  injection Heq as <- <- <-. by exists d.
Qed.

(** C2: for a file-upload request (GET or POST, on an instance that starts
    without [object]), every page that is rendered has under [dataset] the
    Dataset that the lookup by the path's (account, slug) returns, and the
    instance still has no saved object then; whenever that lookup returns a
    dataset, GET renders the page with it.  The choice in
    [get_context_data] is: the instance's [object] when it has one, the
    looked-up Dataset otherwise. *)
Theorem upload_page_context_dataset (form : DataFileUploadForm)
    (self : Self DataFile) (db : DB) :
  object self = None →
  (∀ handler template context st,
     handler = get form ∨ handler = post form →
     run handler (self, db) = (inr (TemplateResponse template context), st) →
     ∃ d, context !! "dataset" = Some (CDataset d)
       ∧ run (Dataset_objects_get (kwargs self !! "account")
                (kwargs self !! "slug")) db = (inr d, db)
       ∧ d ∈ datasets db
       ∧ Some (account_name (ds_owner d)) = kwargs self !! "account"
       ∧ Some (ds_name d) = kwargs self !! "slug"
       ∧ object (fst st) = None)
  ∧ (∀ d,
       run (Dataset_objects_get (kwargs self !! "account")
              (kwargs self !! "slug")) db = (inr d, db) →
       run (get form) (self, db)
       = (inr (TemplateResponse "dataset/upload.html"
                 (<["dataset" := CDataset d]>
                    {[ "form" := CUploadForm form ]})),
          (self, db)))
  ∧ (∀ o,
       run (get_context_data form)
         ({| kwargs := kwargs self; object := Some o |}, db)
       = (inr (<["dataset" := CDataFile o]> {[ "form" := CUploadForm form ]}),
          ({| kwargs := kwargs self; object := Some o |}, db))).
Proof.
  intros Hobj.
  assert (Hpage : ∀ form' template context st,
    run (super_form_invalid form') (self, db)
    = (inr (TemplateResponse template context), st) →
    ∃ d, context !! "dataset" = Some (CDataset d)
      ∧ run (Dataset_objects_get (kwargs self !! "account")
               (kwargs self !! "slug")) db = (inr d, db)
      ∧ d ∈ datasets db
      ∧ Some (account_name (ds_owner d)) = kwargs self !! "account"
      ∧ Some (ds_name d) = kwargs self !! "slug"
      ∧ object (fst st) = None).
  { intros form' template context st Hrun.
    destruct (upload_render_fresh form' self db _ _ _ Hobj Hrun)
      as (d & Hd & _ & -> & ->).
    exists d. split; [by simplify_map_eq|]. split; [done|].
    by destruct (Dataset_objects_get_Some _ _ _ _ _ Hd) as (_ & ? & ? & ?). }
  split; [|split].
  - intros handler template context st [->| ->] Hrun.
    + exact (Hpage form _ _ _ Hrun).
    + unfold post in Hrun. unfold_monad. cbn [fst snd] in Hrun.
      destruct (upload_is_valid form db).
      * destruct (decide (duplicate_file form db)) as [Hdup|Hdup].
        -- pose proof (upload_form_valid_duplicate form self db Hdup) as Hfv.
           unfold run in Hfv. rewrite Hfv in Hrun.
           exact (Hpage _ _ _ _ Hrun).
        -- pose proof (upload_form_valid_saved form self db Hdup) as Hfv.
           unfold run in Hfv. cbv zeta in Hfv. rewrite Hfv in Hrun.
           discriminate.
      * exact (Hpage form _ _ _ Hrun).
  - intros d Hd. pose proof (upload_context_fresh form self db Hobj) as Hctx.
    unfold get. unfold_monad. rewrite Hctx. unfold run in Hd. by rewrite Hd.
  - intros o. by apply upload_context_object.
Qed.

(** C6, as the code has it: a file-upload request whose save violates the
    uniqueness of content within the dataset stores no file row, and when
    the path's (account, slug) resolves to a dataset it gets the upload form
    back with the non-field error "Duplicate file detected! Cannot upload
    the same file twice."; a request whose save violates nothing and whose
    form names the dataset that the path resolves to stores one file row
    linked to that dataset, under a key no row had, and is redirected to
    that dataset's URL. *)
Theorem upload_form_valid_outcomes (form : DataFileUploadForm)
    (self : Self DataFile) (db : DB) :
  object self = None →
  (duplicate_file form db →
     run (DataFileUploadForm_save form) db = (inl IntegrityError, db)
     ∧ snd (run (form_valid form) (self, db)) = (self, db)
     ∧ (∀ d,
          run (Dataset_objects_get (kwargs self !! "account")
                 (kwargs self !! "slug")) db = (inr d, db) →
          fst (run (form_valid form) (self, db))
          = inr (TemplateResponse "dataset/upload.html"
                   (<["dataset" := CDataset d]>
                      {[ "form" := CUploadForm
                           (uf_add_error
                              "Duplicate file detected! Cannot upload the same file twice."
                              form) ]})))
     ∧ "Duplicate file detected! Cannot upload the same file twice."
         ∈ uf_errors
             (uf_add_error
                "Duplicate file detected! Cannot upload the same file twice."
                form))
  ∧ (¬ duplicate_file form db →
     ∀ d,
       run (Dataset_objects_get (kwargs self !! "account")
              (kwargs self !! "slug")) db = (inr d, db) →
       uf_dataset form = d →
       ∃ row,
         df_dataset row = d
         ∧ df_data row = uf_data form
         ∧ (df_pk row ∉ df_pk <$> datafiles db)
         ∧ run (form_valid form) (self, db)
           = (inr (HttpResponseRedirect (get_absolute_url d)),
              ({| kwargs := kwargs self; object := Some row |},
               set_datafiles (datafiles db ++ [row]) db))).
Proof.
  intros Hobj. split; intros Hdup.
  - pose proof (upload_form_valid_duplicate form self db Hdup) as Hfv.
    pose proof (upload_context_fresh
      (uf_add_error
         "Duplicate file detected! Cannot upload the same file twice." form)
      self db Hobj) as Hctx.
    rewrite Hfv. unfold super_form_invalid. unfold_monad. rewrite Hctx.
    split; [by apply upload_save_rejects|]. split; [|split].
    + destruct (Dataset_objects_get_cases (kwargs self !! "account")
                  (kwargs self !! "slug") db) as [[d Hd]|[Hd|Hd]];
        unfold run in Hd; by rewrite Hd.
    + intros d Hd. by rewrite Hd.
    + unfold uf_add_error. cbn. apply elem_of_app. right.
      by apply elem_of_cons; left.
  - intros d _ <-. eexists. split; [|split; [|split]]; cycle 3.
    + by apply upload_form_valid_saved.
    + done.
    + done.
    + cbn. apply next_pk_fresh.
Qed.

End UploadRequests.

(** GET of the upload page of alice's iris. *)
Lemma upload_page_context_dataset_witness :
  object (fresh (O := DataFile) "alice" "iris") = None
  ∧ run (Dataset_objects_get (Some "alice") (Some "iris")) sample_db
    = (inr iris, sample_db)
  ∧ run (DataFileUploadView.get iris_more)
        (fresh "alice" "iris", sample_db)
    = (inr (TemplateResponse "dataset/upload.html"
              (<["dataset" := CDataset iris]>
                 {[ "form" := CUploadForm iris_more ]})),
       (fresh "alice" "iris", sample_db)).
Proof.
  split; [reflexivity|]. split; [reflexivity|].
  apply (upload_page_context_dataset (model := sample_model)
           (validation := sample_validation) iris_more
           (fresh "alice" "iris") sample_db); reflexivity.
Defined.

Lemma iris_again_is_duplicate : duplicate_file iris_again sample_db.
Proof. apply Exists_cons_hd. split; reflexivity. Qed.

(** The same content again, and new content, posted to the upload page of
    alice's iris. *)
Lemma upload_form_valid_outcomes_witness :
  object (fresh (O := DataFile) "alice" "iris") = None
  ∧ duplicate_file iris_again sample_db
  ∧ snd (run (DataFileUploadView.form_valid (model := sample_model)
                iris_again)
           (fresh "alice" "iris", sample_db))
    = (fresh "alice" "iris", sample_db)
  ∧ fst (run (DataFileUploadView.form_valid (model := sample_model)
                iris_again)
           (fresh "alice" "iris", sample_db))
    = inr (TemplateResponse "dataset/upload.html"
             (<["dataset" := CDataset iris]>
                {[ "form" := CUploadForm
                     (uf_add_error
                        "Duplicate file detected! Cannot upload the same file twice."
                        iris_again) ]}))
  ∧ ¬ duplicate_file iris_more sample_db
  ∧ ∃ row,
      df_dataset row = iris
      ∧ df_data row = uf_data iris_more
      ∧ (df_pk row ∉ df_pk <$> datafiles sample_db)
      ∧ run (DataFileUploadView.form_valid (model := sample_model) iris_more)
          (fresh "alice" "iris", sample_db)
        = (inr (HttpResponseRedirect
                  (get_absolute_url (DatasetModel := sample_model) iris)),
           ({| kwargs := kwargs (fresh (O := DataFile) "alice" "iris");
               object := Some row |},
            set_datafiles (datafiles sample_db ++ [row]) sample_db)).
Proof.
  assert (Hnew : ¬ duplicate_file iris_more sample_db).
  { apply (bool_decide_unpack _). vm_compute. exact I. }
  split; [reflexivity|]. split; [exact iris_again_is_duplicate|].
  destruct (upload_form_valid_outcomes (model := sample_model) iris_again
              (fresh "alice" "iris") sample_db eq_refl) as [Hdup _].
  destruct (Hdup iris_again_is_duplicate) as (_ & Hstore & Hpage & _).
  split; [exact Hstore|]. split; [apply Hpage; reflexivity|].
  split; [exact Hnew|].
  destruct (upload_form_valid_outcomes (model := sample_model) iris_more
              (fresh "alice" "iris") sample_db eq_refl) as [_ Hok].
  exact (Hok Hnew iris eq_refl eq_refl).
Defined.

(** C6, as stated, fails twice.  The same content posted again under a path
    that names no dataset hits the uniqueness violation, and the form is not
    rendered again.  New content posted under alice/iris with a form that
    names bob's wine is saved and redirected, but not to the detail page of
    the dataset that the path resolves to. *)
Lemma upload_not_rendered_and_not_resolved :
  ¬ (∀ (model : DatasetModel) (form : DataFileUploadForm)
       (self : Self DataFile) (db : DB),
       object self = None →
       run (DataFileUploadForm_save form) db = (inl IntegrityError, db) →
       ∃ context,
         fst (run (DataFileUploadView.form_valid form) (self, db))
         = inr (TemplateResponse "dataset/upload.html" context))
  ∧ ¬ (∀ (model : DatasetModel) (form : DataFileUploadForm)
         (self : Self DataFile) (db : DB) (d : Dataset),
         object self = None →
         ¬ duplicate_file form db →
         run (Dataset_objects_get (kwargs self !! "account")
                (kwargs self !! "slug")) db = (inr d, db) →
         fst (run (DataFileUploadView.form_valid form) (self, db))
         = inr (HttpResponseRedirect (get_absolute_url d))).
Proof.
  split; intros Hall.
  - destruct (Hall sample_model iris_again (fresh "ghost" "none") sample_db)
      as [context Hrun]; [reflexivity..|].
    vm_compute in Hrun. discriminate.
  - assert (Hnew : ¬ duplicate_file wine_more sample_db).
    { apply (bool_decide_unpack _). vm_compute. exact I. }
    pose proof (Hall sample_model wine_more (fresh "alice" "iris") sample_db
                  iris eq_refl Hnew eq_refl) as Hrun.
    vm_compute in Hrun. discriminate.
Qed.

(** The second of the two: the file is stored on wine and the redirect goes
    to wine, while the path names iris. *)
Example upload_under_another_path :
  fst (run (DataFileUploadView.form_valid (model := sample_model) wine_more)
         (fresh "alice" "iris", sample_db))
  = inr (HttpResponseRedirect "/bob/wine/")
  ∧ run (Dataset_objects_get (Some "alice") (Some "iris")) sample_db
    = (inr iris, sample_db).
Proof. split; reflexivity. Qed.

Example upload_duplicate_unknown_path :
  run (DataFileUploadView.form_valid (model := sample_model)
           iris_again)
    (fresh "ghost" "none", sample_db)
  = (inl DoesNotExist, (fresh "ghost" "none", sample_db)).
Proof. reflexivity. Qed.

(** Uploading the same content twice: the first request stores the file and
    is redirected, the second gets the form back with the duplicate-file
    error, and no second row is stored. *)
Example upload_twice :
  let first := run (DataFileUploadView.form_valid (model := sample_model)
           iris_more)
                 (fresh "alice" "iris", sample_db) in
  let second := run (DataFileUploadView.form_valid (model := sample_model)
           iris_more)
                  (fresh "alice" "iris", snd (snd first)) in
  fst first = inr (HttpResponseRedirect "/alice/iris/")
  ∧ length (datafiles (snd (snd first))) = 2%nat
  ∧ fst second
    = inr (TemplateResponse "dataset/upload.html"
             (<["dataset" := CDataset iris]>
                {[ "form" := CUploadForm
                     (uf_add_error
                        "Duplicate file detected! Cannot upload the same file twice."
                        iris_more) ]}))
  ∧ snd (snd second) = snd (snd first).
Proof. vm_compute. repeat split. Qed.

(** ** The dataset detail panels *)

Section Detail.
Import DatasetDetailView.

(** [get] renders whatever [get_object] resolves, and fails as it fails. *)
Lemma detail_get_of_object (cls : Attrs) (s : Store Dataset) :
  run (get cls) s
  = match run get_object s with
    | (inr d, s') =>
        (inr (TemplateResponse (template_name cls)
                (<["panel_name" := CStr (panel_name cls)]>
                   (<["dataset" := CDataset d]>
                      {[ "object" := CDataset d ]}))),
         ({| kwargs := kwargs (fst s'); object := Some d |}, snd s'))
    | (inl e, s') => (inl e, s')
    end.
Proof.
  unfold get, get_context_data. unfold_monad.
  by destruct (get_object s) as [[e|d] s'].
Qed.

(** With a slug and no primary key among the path parameters, [get_object]
    is a unique lookup among the account's datasets of that name. *)
Lemma detail_get_object_by_slug (self : Self Dataset) (db : DB)
    (slug : string) :
  kwargs self !! "pk" = None → kwargs self !! "slug" = Some slug →
  run get_object (self, db)
  = match filter_name (Some slug)
            (filter_owner__name (kwargs self !! "account") (datasets db)) with
    | [] => (inl Http404, (self, db))
    | [d] => (inr d, (self, db))
    | _ => (inl MultipleObjectsReturned, (self, db))
    end.
Proof.
  intros Hpk Hslug. unfold get_object, get_queryset, queryset_get.
  unfold_monad. cbn [fst snd]. rewrite Hpk, Hslug.
  by destruct (filter_name _ _) as [|d [|d' rest]].
Qed.

Lemma filter_owner_and_name (account slug : string) (rows : list Dataset) :
  filter_name (Some slug) (filter_owner__name (Some account) rows)
  = filter (λ d, account_name (ds_owner d) = account ∧ ds_name d = slug) rows.
Proof.
  unfold filter_name, filter_owner__name. rewrite list_filter_filter.
  apply list_filter_iff. intros d. split.
  - intros [[= ?] [= ?]]. done.
  - intros [-> ->]. done.
Qed.

(** C7: with [account] and [slug] bound by the path, each of the four panel
    views resolves the Dataset by owner name and dataset name: no match ends
    in [Http404] (status 404), a single match is rendered under [dataset]
    with the view's own template and [panel_name].  Two panel views given the
    same request fail alike or render contexts that differ in [panel_name]
    only, with their own templates; the panel names are "files", "schema",
    "explore" and "settings". *)
Theorem detail_panels_share_lookup (cls : Attrs) (self : Self Dataset)
    (db : DB) (account slug : string) :
  kwargs self !! "account" = Some account →
  kwargs self !! "slug" = Some slug →
  kwargs self !! "pk" = None →
  let found := filter (λ d, account_name (ds_owner d) = account
                            ∧ ds_name d = slug) (datasets db) in
  (found = [] →
     run (get cls) (self, db) = (inl Http404, (self, db))
     ∧ status_of_exception Http404 = 404)
  ∧ (∀ d, found = [d] →
       ∃ context,
         run (get cls) (self, db)
         = (inr (TemplateResponse (template_name cls) context),
            ({| kwargs := kwargs self; object := Some d |}, db))
         ∧ context !! "dataset" = Some (CDataset d)
         ∧ context !! "panel_name" = Some (CStr (panel_name cls)))
  ∧ (∀ cls' : Attrs,
       snd (run (get cls) (self, db)) = snd (run (get cls') (self, db))
       ∧ match fst (run (get cls) (self, db)),
                fst (run (get cls') (self, db)) with
         | inl e, inl e' => e = e'
         | inr (TemplateResponse t c), inr (TemplateResponse t' c') =>
             t = template_name cls ∧ t' = template_name cls'
             ∧ delete "panel_name" c = delete "panel_name" c'
         | _, _ => False
         end)
  ∧ panel_name <$> [DatasetDetailView; DatasetSchemaView;
                    DatasetExploreView; DatasetSettingsView]
    = ["files"; "schema"; "explore"; "settings"].
Proof.
  intros Hacc Hslug Hpk found.
  pose proof (detail_get_object_by_slug self db slug Hpk Hslug) as Hobj.
  rewrite Hacc, filter_owner_and_name in Hobj. fold found in Hobj.
  split; [|split; [|split]].
  - intros Hnone. rewrite detail_get_of_object, Hobj, Hnone. done.
  - intros d Hone. rewrite detail_get_of_object, Hobj, Hone.
    eexists. split; [reflexivity|]. by simplify_map_eq.
  - intros cls'. rewrite !detail_get_of_object.
    destruct (run get_object (self, db)) as [[e|d] s']; cbn [fst snd].
    + done.
    + split; [done|]. split; [done|]. split; [done|].
      by rewrite !delete_insert_eq.
  - reflexivity.
Qed.

End Detail.

(** The schema panel of alice's iris. *)
Lemma detail_panels_share_lookup_witness :
  kwargs (fresh (O := Dataset) "alice" "iris") !! "account" = Some "alice"
  ∧ kwargs (fresh (O := Dataset) "alice" "iris") !! "slug" = Some "iris"
  ∧ kwargs (fresh (O := Dataset) "alice" "iris") !! "pk" = None
  ∧ filter (λ d, account_name (ds_owner d) = "alice" ∧ ds_name d = "iris")
      (datasets sample_db) = [iris]
  ∧ ∃ context,
      run (DatasetDetailView.get DatasetDetailView.DatasetSchemaView)
        (fresh "alice" "iris", sample_db)
      = (inr (TemplateResponse "dataset/detail/schema.html" context),
         ({| kwargs := kwargs (fresh (O := Dataset) "alice" "iris");
             object := Some iris |}, sample_db))
      ∧ context !! "dataset" = Some (CDataset iris)
      ∧ context !! "panel_name" = Some (CStr "schema").
Proof.
  split; [reflexivity|]. split; [reflexivity|]. split; [reflexivity|].
  split; [reflexivity|].
  apply (detail_panels_share_lookup DatasetDetailView.DatasetSchemaView
           (fresh "alice" "iris") sample_db "alice" "iris");
    reflexivity.
Defined.

(** A path that names no dataset: each panel answers 404. *)
Example detail_unknown_path :
  (λ cls, fst (run (DatasetDetailView.get cls)
                 (fresh "ghost" "none", sample_db)))
    <$> [DatasetDetailView.DatasetDetailView;
         DatasetDetailView.DatasetSchemaView;
         DatasetDetailView.DatasetExploreView;
         DatasetDetailView.DatasetSettingsView]
  = [inl Http404; inl Http404; inl Http404; inl Http404].
Proof. reflexivity. Qed.

(** Two accounts of one name, each with a dataset "iris": the lookup of the
    panels finds two rows, and the request ends in that exception. *)
Example detail_two_matches :
  let twin := {| ds_pk := 9;
                 ds_owner := {| account_id := 11; account_name := "alice" |};
                 ds_name := "iris"; ds_created := 120 |} in
  fst (run (DatasetDetailView.get DatasetDetailView.DatasetDetailView)
         (fresh "alice" "iris", set_datasets [iris; twin] sample_db))
  = inl MultipleObjectsReturned.
Proof. reflexivity. Qed.

(** ** The upload page of a path that names no dataset *)

(** Where the lookup of the upload page finds nothing, the request ends in
    the lookup's own [DoesNotExist]. *)
Lemma upload_unknown_path_raises (form : DataFileUploadForm)
    (self : Self DataFile) (db : DB) :
  object self = None →
  filter_name (kwargs self !! "slug")
    (filter_owner__name (kwargs self !! "account") (datasets db)) = [] →
  run (DataFileUploadView.get form) (self, db)
  = (inl DoesNotExist, (self, db)).
Proof.
  intros Hobj Hnone.
  pose proof (upload_context_fresh form self db Hobj) as Hctx.
  pose proof (Dataset_objects_get_None _ _ _ Hnone) as Hget.
  unfold DataFileUploadView.get. unfold_monad. by rewrite Hctx, Hget.
Qed.

(** C9: the upload page of a path that names no dataset ends in
    [DoesNotExist], which reaches the client as a server error, where the
    detail page of the same path ends in [Http404], status 404. *)
Theorem upload_unknown_path_is_server_error :
  run (DataFileUploadView.get iris_more) (fresh "ghost" "none", sample_db)
  = (inl DoesNotExist, (fresh "ghost" "none", sample_db))
  ∧ status_of_exception DoesNotExist = 500
  ∧ run (DatasetDetailView.get DatasetDetailView.DatasetDetailView)
      (fresh "ghost" "none", sample_db)
    = (inl Http404, (fresh "ghost" "none", sample_db))
  ∧ status_of_exception Http404 = 404.
Proof. repeat split. Qed.

(** * Further properties *)

(** ** How the star operations compose *)

(** A filtered list whose head is known splits around that head. *)
Lemma head_filter_Some_split {A} (P : A → Prop) `{∀ x, Decision (P x)}
    (l : list A) (x : A) :
  head (filter P l) = Some x →
  ∃ pre post, l = pre ++ x :: post ∧ P x ∧ Forall (λ y, ¬ P y) pre.
Proof.
  intros Hhd. destruct (decide (Exists P l)) as [HE|HE].
  - destruct (head_filter_split P l HE)
      as (pre & y & post & -> & Hy & Hpre & Hhd').
    rewrite Hhd in Hhd'. injection Hhd' as ->. eauto.
  - by rewrite (head_filter_None P l HE) in Hhd.
Qed.

Lemma filter_none {A} (P : A → Prop) `{∀ x, Decision (P x)} (l : list A) :
  Forall (λ y, ¬ P y) l → filter P l = [].
Proof.
  induction 1 as [|x l Hx _ IH]; [done|]. by rewrite filter_cons_False.
Qed.

Section StarSequences.
Context {serializer : StarSerializer}.
Import StarredDatasetsViewSet.

Lemma destroy_run (request : Request) (d : Z) (db : DB) :
  data request !! "dataset_id" = Some d →
  run (destroy request) db
  = match head (filter (λ s, star_user_id s = account_id (user request)
                             ∧ star_dataset_id s = d) (stars db)) with
    | Some star =>
        (inr (Response (JDict [("status", JStr "starred status deleted")])),
         set_stars (filter (λ s, star_pk s ≠ star_pk star) (stars db)) db)
    | None => (inl (AttributeError "delete"), db)
    end.
Proof.
  intros Hkey. unfold destroy, queryset_filter, queryset_first, delete,
    StarredDataset_delete. unfold_monad. rewrite Hkey. cbn beta iota.
  by destruct (head _).
Qed.

Lemma create_run (request : Request) (d : Z) (db : DB) :
  data request !! "dataset_id" = Some d →
  is_valid {| sd_dataset := d; sd_user_id := account_id (user request) |} db
  = true →
  ¬ duplicate_star
      {| sd_dataset := d; sd_user_id := account_id (user request) |} db →
  run (create request) db
  = (inr (Response (JDict [("status", JStr "starred status created")])),
     set_star_seq (next_star_pk db)
       (set_stars (stars db ++ [created_star request d db]) db)).
Proof.
  intros Hkey Hvalid Hnew. unfold create, StarredDatasetSerializer_save.
  unfold_monad. rewrite Hkey. cbn beta iota. rewrite Hvalid.
  by rewrite bool_decide_eq_false_2.
Qed.

Lemma create_run_starred (request : Request) (d : Z) (db : DB) :
  data request !! "dataset_id" = Some d →
  is_valid {| sd_dataset := d; sd_user_id := account_id (user request) |} db
  = true →
  duplicate_star
    {| sd_dataset := d; sd_user_id := account_id (user request) |} db →
  run (create request) db = (inl IntegrityError, db).
Proof.
  intros Hkey Hvalid Hdup. unfold create, StarredDatasetSerializer_save.
  unfold_monad. rewrite Hkey. cbn beta iota. rewrite Hvalid.
  by rewrite bool_decide_eq_true_2.
Qed.

(** A successful destroy, with unique keys, took one row out of the table
    and left the others in place. *)
Lemma destroy_ok_split (request : Request) (d : Z) (db db' : DB)
    (resp : HttpResponse) :
  data request !! "dataset_id" = Some d →
  NoDup (star_pk <$> stars db) →
  run (destroy request) db = (inr resp, db') →
  ∃ pre star post,
    stars db = pre ++ star :: post
    ∧ (star_user_id star = account_id (user request)
       ∧ star_dataset_id star = d)
    ∧ Forall (λ s, ¬ (star_user_id s = account_id (user request)
                      ∧ star_dataset_id s = d)) pre
    ∧ db' = set_stars (pre ++ post) db.
Proof.
  intros Hkey Hnd. rewrite (destroy_run _ _ _ Hkey).
  destruct (head _) as [star|] eqn:Hhd; [|discriminate].
  intros [= _ <-].
  apply head_filter_Some_split in Hhd as (pre & post & Hsplit & HP & Hpre).
  exists pre, star, post. repeat split; try done; try apply HP.
  rewrite Hsplit in *. by rewrite delete_by_pk.
Qed.

(** X1: with unique primary keys, a star-destroy request that succeeds
    removes exactly one row, and that row is one of the requested (user,
    dataset): the table is one row shorter, the rows of that pair are one
    fewer, every other row is kept in order, keys stay unique, and the other
    tables are untouched. *)
Theorem destroy_removes_one_row (request : Request) (d : Z) (db db' : DB)
    (resp : HttpResponse) :
  data request !! "dataset_id" = Some d →
  NoDup (star_pk <$> stars db) →
  run (destroy request) db = (inr resp, db') →
  let P := λ s, star_user_id s = account_id (user request)
                ∧ star_dataset_id s = d in
  length (stars db) = S (length (stars db'))
  ∧ length (filter P (stars db)) = S (length (filter P (stars db')))
  ∧ filter (λ s, ¬ P s) (stars db') = filter (λ s, ¬ P s) (stars db)
  ∧ NoDup (star_pk <$> stars db')
  ∧ datasets db' = datasets db ∧ datafiles db' = datafiles db.
Proof.
  intros Hkey Hnd Hrun P.
  destruct (destroy_ok_split _ _ _ _ _ Hkey Hnd Hrun)
    as (pre & star & post & Hsplit & HP & Hpre & ->).
  cbn [stars datasets datafiles set_stars]. rewrite Hsplit in *.
  split; [|split; [|split; [|split]]].
  - rewrite !length_app. cbn. lia.
  - rewrite !filter_app, (filter_cons_True P) by done.
    rewrite !length_app. cbn. lia.
  - rewrite !filter_app. f_equal.
    rewrite filter_cons_False; [done|]. by intros Hn; apply Hn.
  - eapply sublist_NoDup; [exact Hnd|]. apply fmap_sublist.
    apply sublist_app; [done|]. by apply sublist_cons.
  - done.
Qed.

(** X2: with unique primary keys, a star-destroy request of one user leaves
    the star list of every other user as it was. *)
Theorem destroy_keeps_other_lists (request other : Request) (d : Z)
    (db db' : DB) (resp : HttpResponse) :
  data request !! "dataset_id" = Some d →
  NoDup (star_pk <$> stars db) →
  run (destroy request) db = (inr resp, db') →
  account_id (user other) ≠ account_id (user request) →
  fst (run (list_ other) db') = fst (run (list_ other) db).
Proof.
  intros Hkey Hnd Hrun Hother.
  destruct (destroy_ok_split _ _ _ _ _ Hkey Hnd Hrun)
    as (pre & star & post & Hsplit & [Hu _] & _ & ->).
  unfold list_, queryset_filter. unfold_monad.
  cbn [fst stars set_stars]. rewrite Hsplit, !filter_app.
  rewrite filter_cons_False; [done|]. rewrite Hu. by intros Heq.
Qed.

(** X3: when exactly one star matches the request and keys are unique, the
    first star-destroy request deletes it and the same request sent again
    ends in [AttributeError], changing nothing more. *)
Theorem destroy_again_raises (request : Request) (d : Z) (db : DB)
    (star : StarredDataset) :
  data request !! "dataset_id" = Some d →
  NoDup (star_pk <$> stars db) →
  filter (λ s, star_user_id s = account_id (user request)
               ∧ star_dataset_id s = d) (stars db) = [star] →
  ∃ db1,
    run (destroy request) db
    = (inr (Response (JDict [("status", JStr "starred status deleted")])),
       db1)
    ∧ (star ∉ stars db1)
    ∧ run (destroy request) db1 = (inl (AttributeError "delete"), db1)
    ∧ run (destroy request;; destroy request) db
      = (inl (AttributeError "delete"), db1).
Proof.
  intros Hkey Hnd Hone.
  set (P := λ s, star_user_id s = account_id (user request)
                 ∧ star_dataset_id s = d) in *.
  assert (Hhd : head (filter P (stars db)) = Some star) by by rewrite Hone.
  apply head_filter_Some_split in Hhd as (pre & post & Hsplit & HP & Hpre).
  assert (Hpost : filter P post = []).
  { rewrite Hsplit, filter_app, (filter_none P pre Hpre) in Hone.
    rewrite filter_cons_True in Hone by done. by injection Hone. }
  assert (Hfirst : run (destroy request) db
    = (inr (Response (JDict [("status", JStr "starred status deleted")])),
       set_stars (pre ++ post) db)).
  { rewrite (destroy_run _ _ _ Hkey). fold P. rewrite Hone. cbn [head].
    rewrite Hsplit at 1. by rewrite delete_by_pk by by rewrite <- Hsplit. }
  assert (Hsecond : run (destroy request) (set_stars (pre ++ post) db)
    = (inl (AttributeError "delete"), set_stars (pre ++ post) db)).
  { rewrite (destroy_run _ _ _ Hkey). fold P. cbn [stars set_stars].
    by rewrite filter_app, (filter_none P pre Hpre), Hpost. }
  exists (set_stars (pre ++ post) db).
  split; [done|]. split; [|split; [done|]].
  - cbn [stars set_stars]. intros Hin.
    rewrite Hsplit in Hnd. rewrite fmap_app, fmap_cons in Hnd.
    apply NoDup_app in Hnd as (_ & Hdisj & Hnd).
    apply NoDup_cons in Hnd as (Hnotin & _).
    apply elem_of_app in Hin as [Hin|Hin].
    + apply (Hdisj (star_pk star)); [by apply list_elem_of_fmap_2|].
      by apply elem_of_cons; left.
    + apply Hnotin. by apply list_elem_of_fmap_2.
  - unfold run in *. unfold mbind, M_bind. by rewrite Hfirst, Hsecond.
Qed.

(** X4: when the user has no star for the dataset yet and the serializer
    accepts the data, a star-create request followed by the star-destroy
    request of the same body leaves the rows of every table as they were;
    only the key sequence of the star table has moved on, so the key of the
    deleted star is not given out again. *)
Theorem create_then_destroy_restores_rows (request : Request) (d : Z)
    (db : DB) :
  data request !! "dataset_id" = Some d →
  is_valid {| sd_dataset := d; sd_user_id := account_id (user request) |} db
  = true →
  ¬ duplicate_star
      {| sd_dataset := d; sd_user_id := account_id (user request) |} db →
  ∃ db',
    run (create request;; destroy request) db
    = (inr (Response (JDict [("status", JStr "starred status deleted")])), db')
    ∧ stars db' = stars db
    ∧ datasets db' = datasets db
    ∧ datafiles db' = datafiles db
    ∧ star_seq db < star_seq db'
    ∧ next_star_pk db < next_star_pk db'.
Proof.
  intros Hkey Hvalid Hnew.
  set (P := λ s, star_user_id s = account_id (user request)
                 ∧ star_dataset_id s = d).
  assert (Hnone : filter P (stars db) = []).
  { apply head_filter_None. exact Hnew. }
  pose proof (create_run _ _ _ Hkey Hvalid Hnew) as Hc.
  set (new := created_star request d db) in *.
  set (db1 := set_star_seq (next_star_pk db)
                (set_stars (stars db ++ [new]) db)) in *.
  pose proof (destroy_run request d db1 Hkey) as Hd.
  cbn [stars set_stars set_star_seq db1] in Hd. fold P in Hd.
  assert (Hhd : head (filter P (stars db ++ [new])) = Some new).
  { rewrite filter_app, Hnone. by rewrite (filter_cons_True P). }
  rewrite Hhd in Hd.
  assert (Hrest : filter (λ s, star_pk s ≠ star_pk new) (stars db ++ [new])
                  = stars db).
  { rewrite filter_app, filter_cons_False, filter_nil, app_nil_r
      by (intros Hn; by apply Hn).
    apply filter_all, Forall_forall. intros y Hy Heq.
    apply next_star_pk_above in Hy. cbn in Heq. lia. }
  rewrite Hrest in Hd.
  eexists. split.
  - unfold run in *. unfold mbind, M_bind. rewrite Hc. exact Hd.
  - cbn [stars datasets datafiles star_seq set_stars set_star_seq db1].
    split; [done|]. split; [done|]. split; [done|].
    split; [apply next_star_pk_after_seq|].
    unfold next_star_pk, db1.
    cbn [stars star_seq set_stars set_star_seq]. unfold next_star_pk. lia.
Qed.

(** X6: after a star-create request that the serializer accepts, of a user
    who had no star for the dataset, the star list of that user is the list
    as it was with the new star, for the requested dataset, added at its
    end, and the list of every other user is as it was. *)
Theorem create_then_list (request other : Request) (d : Z) (db : DB) :
  data request !! "dataset_id" = Some d →
  is_valid {| sd_dataset := d; sd_user_id := account_id (user request) |} db
  = true →
  ¬ duplicate_star
      {| sd_dataset := d; sd_user_id := account_id (user request) |} db →
  let own := filter (λ s, star_user_id s = account_id (user request))
               (stars db) in
  ∃ star db1,
    run (create request) db
    = (inr (Response (JDict [("status", JStr "starred status created")])), db1)
    ∧ star_user_id star = account_id (user request)
    ∧ star_dataset_id star = d
    ∧ (star_pk star ∉ star_pk <$> stars db)
    ∧ run (create request;; list_ request) db
      = (inr (Response (JList (serializer_data <$> own ++ [star]))), db1)
    ∧ (account_id (user other) ≠ account_id (user request) →
       fst (run (list_ other) db1) = fst (run (list_ other) db)).
Proof.
  intros Hkey Hvalid Hnew own.
  pose proof (create_run _ _ _ Hkey Hvalid Hnew) as Hc.
  eexists (created_star request d db), _.
  split; [exact Hc|]. split; [done|]. split; [done|].
  split; [apply next_star_pk_fresh|]. split.
  - unfold run in *. unfold mbind, M_bind. rewrite Hc.
    unfold list_, queryset_filter. unfold_monad.
    cbn [fst snd stars set_stars set_star_seq].
    by rewrite filter_app, filter_cons_True.
  - intros Hother. unfold list_, queryset_filter. unfold_monad.
    cbn [fst snd stars set_stars set_star_seq].
    rewrite filter_app, filter_cons_False, filter_nil, app_nil_r; [done|].
    cbn. by intros Heq.
Qed.

(** X5: [create] has no handler for the rejection of a save: a star-create
    request that passes validation for a (user, dataset) that is starred
    already ends in [IntegrityError], which reaches the client as a server
    error, and stores nothing. *)
Theorem create_for_starred_pair_is_server_error (request : Request) (d : Z)
    (db : DB) :
  data request !! "dataset_id" = Some d →
  is_valid {| sd_dataset := d; sd_user_id := account_id (user request) |} db
  = true →
  duplicate_star
    {| sd_dataset := d; sd_user_id := account_id (user request) |} db →
  run (create request) db = (inl IntegrityError, db)
  ∧ status_of_exception IntegrityError = 500.
Proof.
  intros Hkey Hvalid Hdup. split; [|done]. by apply (create_run_starred _ d).
Qed.

End StarSequences.

Lemma sample_star_keys_unique : NoDup (star_pk <$> stars sample_db).
Proof. apply (bool_decide_unpack _). vm_compute. exact I. Qed.

(** Alice unstars dataset 5 on the sample database. *)
Lemma destroy_removes_one_row_witness :
  data (request_of alice {[ "dataset_id" := 5 ]}) !! "dataset_id" = Some 5
  ∧ NoDup (star_pk <$> stars sample_db)
  ∧ run (StarredDatasetsViewSet.destroy
           (request_of alice {[ "dataset_id" := 5 ]})) sample_db
    = (inr (Response (JDict [("status", JStr "starred status deleted")])),
       set_stars [ {| star_pk := 1; star_user_id := 8; star_dataset_id := 5 |};
                   {| star_pk := 3; star_user_id := 7; star_dataset_id := 6 |} ]
         sample_db)
  ∧ length (stars sample_db) = 3%nat.
Proof.
  split; [reflexivity|]. split; [exact sample_star_keys_unique|].
  split; [reflexivity|].
  exact (proj1 (destroy_removes_one_row
                  (request_of alice {[ "dataset_id" := 5 ]}) 5 sample_db _ _
                  eq_refl sample_star_keys_unique eq_refl)).
Defined.

(** Bob's list after alice unstars dataset 5. *)
Lemma destroy_keeps_other_lists_witness :
  account_id (user (request_of bob ∅))
    ≠ account_id (user (request_of alice {[ "dataset_id" := 5 ]}))
  ∧ fst (run (StarredDatasetsViewSet.list_ (serializer := sample_serializer)
                (request_of bob ∅))
           (snd (run (StarredDatasetsViewSet.destroy
                        (request_of alice {[ "dataset_id" := 5 ]}))
                   sample_db)))
    = fst (run (StarredDatasetsViewSet.list_ (serializer := sample_serializer)
                  (request_of bob ∅)) sample_db).
Proof.
  split; [discriminate|].
  apply (destroy_keeps_other_lists (serializer := sample_serializer)
           (request_of alice {[ "dataset_id" := 5 ]}) (request_of bob ∅) 5
           sample_db _
           (Response (JDict [("status", JStr "starred status deleted")])));
    [reflexivity|exact sample_star_keys_unique|reflexivity|discriminate].
Defined.

Lemma destroy_again_raises_witness :
  ∃ db1,
    run (StarredDatasetsViewSet.destroy
           (request_of alice {[ "dataset_id" := 5 ]})) sample_db
    = (inr (Response (JDict [("status", JStr "starred status deleted")])),
       db1)
    ∧ ({| star_pk := 2; star_user_id := 7; star_dataset_id := 5 |}
         ∉ stars db1)
    ∧ run (StarredDatasetsViewSet.destroy
             (request_of alice {[ "dataset_id" := 5 ]})) db1
      = (inl (AttributeError "delete"), db1)
    ∧ run (StarredDatasetsViewSet.destroy
             (request_of alice {[ "dataset_id" := 5 ]});;
           StarredDatasetsViewSet.destroy
             (request_of alice {[ "dataset_id" := 5 ]})) sample_db
      = (inl (AttributeError "delete"), db1).
Proof.
  apply (destroy_again_raises (request_of alice {[ "dataset_id" := 5 ]}) 5
           sample_db);
    [reflexivity|exact sample_star_keys_unique|reflexivity].
Defined.

(** Bob stars and then unstars dataset 6, which he had not starred. *)
Lemma create_then_destroy_restores_rows_witness :
  ∃ db',
    run (StarredDatasetsViewSet.create (serializer := sample_serializer)
           (request_of bob {[ "dataset_id" := 6 ]});;
         StarredDatasetsViewSet.destroy
           (request_of bob {[ "dataset_id" := 6 ]})) sample_db
    = (inr (Response (JDict [("status", JStr "starred status deleted")])), db')
    ∧ stars db' = stars sample_db
    ∧ datasets db' = datasets sample_db
    ∧ datafiles db' = datafiles sample_db
    ∧ star_seq sample_db < star_seq db'
    ∧ next_star_pk sample_db < next_star_pk db'.
Proof.
  apply (create_then_destroy_restores_rows (serializer := sample_serializer)
           (request_of bob {[ "dataset_id" := 6 ]}) 6 sample_db);
    [reflexivity|reflexivity|exact bob_has_not_starred_wine].
Defined.

(** Starring, unstarring and starring again does not give the key of the
    deleted star out again. *)
Example star_key_is_not_reused :
  let request := request_of bob {[ "dataset_id" := 6 ]} in
  let once := snd (run (StarredDatasetsViewSet.create
                          (serializer := sample_serializer) request)
                     sample_db) in
  let twice := snd (run (StarredDatasetsViewSet.destroy request;;
                         StarredDatasetsViewSet.create
                           (serializer := sample_serializer) request)
                      once) in
  star_pk <$> stars once = [1; 2; 3; 4]
  ∧ star_pk <$> stars twice = [1; 2; 3; 5].
Proof. vm_compute. split; reflexivity. Qed.

(** Alice stars dataset 6, which she has starred already. *)
Lemma create_for_starred_pair_is_server_error_witness :
  duplicate_star {| sd_dataset := 6; sd_user_id := 7 |} sample_db
  ∧ run (StarredDatasetsViewSet.create (serializer := sample_serializer)
           (request_of alice {[ "dataset_id" := 6 ]})) sample_db
    = (inl IntegrityError, sample_db).
Proof.
  assert (Hdup : duplicate_star {| sd_dataset := 6; sd_user_id := 7 |}
                   sample_db).
  { apply (bool_decide_unpack _). vm_compute. exact I. }
  split; [exact Hdup|].
  exact (proj1 (create_for_starred_pair_is_server_error
                  (serializer := sample_serializer)
                  (request_of alice {[ "dataset_id" := 6 ]}) 6 sample_db
                  eq_refl eq_refl Hdup)).
Defined.

(** Bob stars dataset 6 and lists his stars. *)
Lemma create_then_list_witness :
  ∃ star db1,
    run (StarredDatasetsViewSet.create (serializer := sample_serializer)
           (request_of bob {[ "dataset_id" := 6 ]})) sample_db
    = (inr (Response (JDict [("status", JStr "starred status created")])), db1)
    ∧ star_user_id star = 8
    ∧ star_dataset_id star = 6
    ∧ (star_pk star ∉ star_pk <$> stars sample_db)
    ∧ run (StarredDatasetsViewSet.create (serializer := sample_serializer)
             (request_of bob {[ "dataset_id" := 6 ]});;
           StarredDatasetsViewSet.list_ (serializer := sample_serializer)
             (request_of bob {[ "dataset_id" := 6 ]})) sample_db
      = (inr (Response
                (JList (serializer_data (StarSerializer := sample_serializer)
                          <$> filter (λ s, star_user_id s = 8)
                                (stars sample_db) ++ [star]))), db1)
    ∧ (account_id (user (request_of alice ∅))
         ≠ account_id (user (request_of bob {[ "dataset_id" := 6 ]})) →
       fst (run (StarredDatasetsViewSet.list_
                   (serializer := sample_serializer) (request_of alice ∅))
              db1)
       = fst (run (StarredDatasetsViewSet.list_
                     (serializer := sample_serializer) (request_of alice ∅))
                sample_db)).
Proof.
  apply (create_then_list (serializer := sample_serializer)
           (request_of bob {[ "dataset_id" := 6 ]}) (request_of alice ∅) 6
           sample_db);
    [reflexivity|reflexivity|exact bob_has_not_starred_wine].
Defined.

(** ** What the detail panels can show *)

Section DetailScope.
Import DatasetDetailView.

(** Whatever the path binds (a slug, a primary key, both), the object that
    [get_object] resolves is taken from [get_queryset], and the lookup
    writes nothing. *)
Lemma detail_get_object_in_queryset (self : Self Dataset) (db : DB)
    (d : Dataset) (st : Store Dataset) :
  run get_object (self, db) = (inr d, st) →
  st = (self, db)
  ∧ d ∈ filter_owner__name (kwargs self !! "account") (datasets db).
Proof.
  unfold get_object, get_queryset, queryset_get, filter_name.
  unfold_monad. cbn [fst snd].
  destruct (kwargs self !! "pk") as [pk|];
    destruct (kwargs self !! "slug") as [slug|];
    try destruct (int_of_string pk) as [n|]; cbn beta iota;
    try discriminate;
    match goal with
    | |- context [match ?l with [] => _ | _ => _ end] =>
        destruct l as [|d0 [|d1 rest]] eqn:Hl
    end; cbn; intros Heq; try discriminate;
    injection Heq as -> <-; (split; [done|]);
    assert (Hin : d ∈ [d]) by (by apply elem_of_cons; left);
    rewrite <- Hl in Hin; by apply list_elem_of_filter in Hin as [_ Hin].
Qed.

(** X7: on a path that binds no primary key, a panel view renders a page
    only for a dataset of the table whose owner's name is the [account] of
    the path and whose name is its [slug] (so never when one of the two is
    not bound); the request writes nothing to the database and leaves the
    dataset in [self.object]. *)
Theorem detail_renders_only_account_datasets (cls : Attrs)
    (self : Self Dataset) (db : DB) (template : string)
    (context : gmap string CtxVal) (st : Store Dataset) :
  kwargs self !! "pk" = None →
  run (get cls) (self, db) = (inr (TemplateResponse template context), st) →
  ∃ d, context !! "dataset" = Some (CDataset d)
    ∧ d ∈ datasets db
    ∧ kwargs self !! "account" = Some (account_name (ds_owner d))
    ∧ kwargs self !! "slug" = Some (ds_name d)
    ∧ st = ({| kwargs := kwargs self; object := Some d |}, db).
Proof.
  intros Hpk. rewrite detail_get_of_object.
  destruct (kwargs self !! "slug") as [slug|] eqn:Hslug.
  - rewrite (detail_get_object_by_slug self db slug Hpk Hslug).
    destruct (filter_name (Some slug) _) as [|d [|d' rest]] eqn:Hf;
      try discriminate.
    intros [= <- <- <-]. exists d.
    assert (Hin : d ∈ filter_name (Some slug)
              (filter_owner__name (kwargs self !! "account") (datasets db)))
      by (rewrite Hf; by apply elem_of_cons; left).
    unfold filter_name, filter_owner__name in Hin.
    apply list_elem_of_filter in Hin as [Hname Hin].
    apply list_elem_of_filter in Hin as [Hacc Hin].
    split; [by simplify_map_eq|]. done.
  - unfold get_object, get_queryset. unfold_monad. cbn [fst snd].
    rewrite Hpk, Hslug. discriminate.
Qed.

(** X8: when more than one dataset has the owner name and the name of the
    path, every panel view ends in [MultipleObjectsReturned], which reaches
    the client as a server error and not as 404; nothing is written. *)
Theorem detail_several_matches_is_server_error (cls : Attrs)
    (self : Self Dataset) (db : DB) (account slug : string)
    (d1 d2 : Dataset) (rest : list Dataset) :
  kwargs self !! "account" = Some account →
  kwargs self !! "slug" = Some slug →
  kwargs self !! "pk" = None →
  filter (λ d, account_name (ds_owner d) = account ∧ ds_name d = slug)
    (datasets db) = d1 :: d2 :: rest →
  run (get cls) (self, db) = (inl MultipleObjectsReturned, (self, db))
  ∧ status_of_exception MultipleObjectsReturned = 500.
Proof.
  intros Hacc Hslug Hpk Hfound. split; [|done].
  rewrite detail_get_of_object.
  rewrite (detail_get_object_by_slug self db slug Hpk Hslug).
  by rewrite Hacc, filter_owner_and_name, Hfound.
Qed.

End DetailScope.

(** The files panel of alice's iris. *)
Lemma detail_renders_only_account_datasets_witness :
  kwargs (fresh (O := Dataset) "alice" "iris") !! "pk" = None
  ∧ ∃ d, ({[ "object" := CDataset iris; "dataset" := CDataset iris;
             "panel_name" := CStr "files" ]} : gmap string CtxVal)
           !! "dataset" = Some (CDataset d)
      ∧ d ∈ datasets sample_db
      ∧ kwargs (fresh (O := Dataset) "alice" "iris") !! "account"
        = Some (account_name (ds_owner d))
      ∧ kwargs (fresh (O := Dataset) "alice" "iris") !! "slug"
        = Some (ds_name d)
      ∧ ({| kwargs := kwargs (fresh (O := Dataset) "alice" "iris");
            object := Some iris |}, sample_db)
        = ({| kwargs := kwargs (fresh (O := Dataset) "alice" "iris");
              object := Some d |}, sample_db).
Proof.
  split; [reflexivity|].
  apply (detail_renders_only_account_datasets
           DatasetDetailView.DatasetDetailView (fresh "alice" "iris")
           sample_db "dataset/detail/files.html"); reflexivity.
Defined.

(** Primary keys of the path, as the lookup converts them. *)
Example int_of_string_samples :
  DatasetDetailView.int_of_string <$> ["5"; "+5"; " 5"; "-5"; " 12 "; "";
                                       "+"; "5a"; "+ 5"]
  = [Some 5; Some 5; Some 5; Some (-5); Some 12; None; None; None; None].
Proof. reflexivity. Qed.

(** A path that binds the primary key "+5": the files panel renders alice's
    iris, whose key is 5. *)
Example detail_by_signed_pk :
  ∃ context,
    fst (run (DatasetDetailView.get DatasetDetailView.DatasetDetailView)
           ({| kwargs := {[ "account" := "alice"; "pk" := "+5" ]};
               object := None |}, sample_db))
    = inr (TemplateResponse "dataset/detail/files.html" context)
    ∧ context !! "dataset" = Some (CDataset iris).
Proof. eexists. split; [reflexivity|]. reflexivity. Qed.

(** Two accounts named alice, each with a dataset "iris". *)
Lemma detail_several_matches_is_server_error_witness :
  let twin := {| ds_pk := 9;
                 ds_owner := {| account_id := 11; account_name := "alice" |};
                 ds_name := "iris"; ds_created := 120 |} in
  run (DatasetDetailView.get DatasetDetailView.DatasetExploreView)
    (fresh "alice" "iris", set_datasets [iris; twin] sample_db)
  = (inl MultipleObjectsReturned,
     (fresh "alice" "iris", set_datasets [iris; twin] sample_db)).
Proof.
  intros twin.
  exact (proj1 (detail_several_matches_is_server_error
                  DatasetDetailView.DatasetExploreView (fresh "alice" "iris")
                  (set_datasets [iris; twin] sample_db) "alice" "iris"
                  iris twin [] eq_refl eq_refl eq_refl eq_refl)).
Defined.

(** ** The pages of the dataset list *)

(** The page entries of the list context, for a page the paginator has. *)
Lemma list_context_page_rows (page : Z) (db : DB) :
  1 ≤ page ≤ DatasetListView.num_pages (queryset_count (datasets db)) →
  ∃ context,
    run (DatasetListView.get_context_data page) db = (inr context, db)
    ∧ context !! "datasets"
      = Some (CDatasets (take 25 (drop (Z.to_nat ((page - 1) * 25))
                                    (datasets db))))
    ∧ context !! "object_list" = context !! "datasets"
    ∧ context !! "is_paginated"
      = Some (CBool (bool_decide
           (1 < DatasetListView.num_pages (queryset_count (datasets db)))))
    ∧ context !! "num_datasets"
      = Some (CInt (Z.of_nat (length (datasets db)))).
Proof.
  destruct db as [rows files marks seq]. cbn [datasets]. intros Hpage.
  unfold DatasetListView.get_context_data,
    DatasetListView.super_get_context_data, Dataset_objects_count,
    Dataset_objects_latest, queryset_count in *.
  unfold_monad. cbn [datasets].
  rewrite bool_decide_eq_false_2 by lia.
  destruct rows as [|row rest].
  - rewrite bool_decide_eq_false_2 by (simpl; lia).
    eexists. split; [reflexivity|]. by simplify_map_eq.
  - rewrite bool_decide_eq_true_2 by (simpl; lia).
    cbv beta. cbn [datasets].
    destruct (latest_by ds_created (row :: rest)) as [best|] eqn:Hbest.
    + eexists. split; [reflexivity|]. by simplify_map_eq.
    + by apply latest_by_None in Hbest.
Qed.

(** X10: a page of the dataset list that the paginator has shows, under
    [datasets] and [object_list] alike, at most 25 datasets of the table in
    their order, and at least one unless the table is empty, while
    [num_datasets] counts the datasets of all pages; [is_paginated] says
    whether there are more than 25. *)
Theorem list_page_has_at_most_25 (page : Z) (db : DB) :
  1 ≤ page ≤ DatasetListView.num_pages (queryset_count (datasets db)) →
  ∃ context rows,
    run (DatasetListView.get_context_data page) db = (inr context, db)
    ∧ context !! "datasets" = Some (CDatasets rows)
    ∧ context !! "object_list" = Some (CDatasets rows)
    ∧ sublist rows (datasets db)
    ∧ (length rows ≤ 25)%nat
    ∧ (datasets db ≠ [] → rows ≠ [])
    ∧ context !! "num_datasets"
      = Some (CInt (Z.of_nat (length (datasets db))))
    ∧ context !! "is_paginated"
      = Some (CBool (bool_decide (25 < Z.of_nat (length (datasets db))))).
Proof.
  intros Hpage.
  destruct (list_context_page_rows page db Hpage)
    as (context & Hrun & Hrows & Hlist & Hpag & Hnum).
  exists context, (take 25 (drop (Z.to_nat ((page - 1) * 25)) (datasets db))).
  unfold DatasetListView.num_pages, DatasetListView.paginate_by,
    queryset_count in *.
  split; [done|]. split; [done|]. split; [by rewrite Hlist|].
  split; [|split; [|split; [|split; [done|]]]].
  - etrans; [apply sublist_take|apply sublist_drop].
  - rewrite length_take. lia.
  - intros Hne Hnil. apply (f_equal length) in Hnil.
    rewrite length_take, length_drop in Hnil. cbn [length] in Hnil.
    assert (0 < length (datasets db))%nat
      by (destruct (datasets db); [done|cbn; lia]).
    pose proof (Z.mul_div_le
      (Z.max 1 (Z.of_nat (length (datasets db))) + 25 - 1) 25).
    lia.
  - rewrite Hpag. f_equal. f_equal. apply bool_decide_ext. split; intros H.
    + apply Z.lt_nge. intros Hle.
      assert ((Z.max 1 (Z.of_nat (length (datasets db))) + 25 - 1) / 25 < 2);
        [|lia].
      apply Z.div_lt_upper_bound; lia.
    + apply Z.lt_le_trans with 2; [lia|].
      apply Z.div_le_lower_bound; lia.
Qed.

(** X11: every dataset of the table is on a page of the list: the one at
    position [i] (from 0) is at position [i mod 25] of page [i / 25 + 1],
    which the paginator has. *)
Theorem list_every_dataset_on_a_page (db : DB) (i : nat) (d : Dataset) :
  datasets db !! i = Some d →
  let page := Z.of_nat (i / 25) + 1 in
  1 ≤ page ≤ DatasetListView.num_pages (queryset_count (datasets db))
  ∧ ∃ context rows,
      run (DatasetListView.get_context_data page) db = (inr context, db)
      ∧ context !! "datasets" = Some (CDatasets rows)
      ∧ rows !! (i mod 25)%nat = Some d.
Proof.
  intros Hi page.
  assert (Hlt : (i < length (datasets db))%nat) by by eapply lookup_lt_Some.
  assert (Hdiv : (25 * (i / 25) ≤ i)%nat) by (apply Nat.Div0.mul_div_le).
  assert (Hpage : 1 ≤ page
    ≤ DatasetListView.num_pages (queryset_count (datasets db))).
  { subst page. split; [lia|].
    unfold DatasetListView.num_pages, DatasetListView.paginate_by,
      queryset_count.
    apply Z.div_le_lower_bound; lia. }
  split; [done|].
  destruct (list_context_page_rows page db Hpage)
    as (context & Hrun & Hrows & _).
  eexists _, _. split; [done|]. split; [done|].
  rewrite lookup_take_lt by (apply Nat.mod_upper_bound; lia).
  rewrite lookup_drop, <- Hi. f_equal. subst page.
  pose proof (Nat.div_mod_eq i 25). lia.
Qed.

(** Page 1 of the sample list, and the page of its second dataset. *)
Lemma list_page_has_at_most_25_witness :
  ∃ context rows,
    run (DatasetListView.get_context_data 1) sample_db
      = (inr context, sample_db)
    ∧ context !! "datasets" = Some (CDatasets rows)
    ∧ context !! "object_list" = Some (CDatasets rows)
    ∧ sublist rows (datasets sample_db)
    ∧ (length rows ≤ 25)%nat
    ∧ (datasets sample_db ≠ [] → rows ≠ [])
    ∧ context !! "num_datasets"
      = Some (CInt (Z.of_nat (length (datasets sample_db))))
    ∧ context !! "is_paginated"
      = Some (CBool (bool_decide
                       (25 < Z.of_nat (length (datasets sample_db))))).
Proof.
  apply (list_page_has_at_most_25 1 sample_db).
  vm_compute; split; discriminate.
Defined.

Lemma list_every_dataset_on_a_page_witness :
  1 ≤ 1 ≤ DatasetListView.num_pages (queryset_count (datasets sample_db))
  ∧ ∃ context rows,
      run (DatasetListView.get_context_data 1) sample_db
        = (inr context, sample_db)
      ∧ context !! "datasets" = Some (CDatasets rows)
      ∧ rows !! 1%nat = Some wine.
Proof.
  apply (list_every_dataset_on_a_page sample_db 1 wine). reflexivity.
Defined.

(** ** Submitting the same thing again *)

Section CreateAgain.
Context {model : DatasetModel}.
Import DatasetCreateView.

(** The row [form_valid] stores for a create form. *)
Lemma create_form_valid_saved (form : CreateDatasetForm)
    (self : Self Dataset) (db : DB) :
  ¬ duplicate_name form db →
  let row := {| ds_pk := next_pk ds_pk (datasets db);
                ds_owner := user (cd_request form);
                ds_name := cd_name form;
                ds_created := now (cd_request form) |} in
  run (form_valid form) (self, db)
  = (inr (HttpResponseRedirect (get_absolute_url row)),
     ({| kwargs := kwargs self; object := Some row |},
      set_datasets (datasets db ++ [row]) db)).
Proof.
  intros Hdup row.
  unfold form_valid, super_form_valid, get_success_url,
    CreateDatasetForm_save. unfold_monad. cbn [fst snd].
  by rewrite bool_decide_eq_false_2.
Qed.

Lemma create_form_valid_duplicate (form : CreateDatasetForm)
    (self : Self Dataset) (db : DB) :
  object self = None → duplicate_name form db →
  run (form_valid form) (self, db)
  = (inr (TemplateResponse "dataset/create.html"
            {[ "form" := CCreateForm
                 (cd_add_error
                    "A dataset with this name already exists, please choose another."
                    form) ]}),
     (self, db)).
Proof.
  intros Hobj Hdup%create_save_rejects.
  unfold form_valid, super_form_valid, super_form_invalid, get_context_data.
  unfold_monad. cbn [fst snd]. rewrite Hdup. cbn. by rewrite Hobj.
Qed.

(** X12: once a dataset-create request has stored its dataset, a further
    request of the same user for the same name gets the form back with the
    duplicate-name error and stores nothing, whereas the same name is still
    free for a user who has no dataset of that name. *)
Theorem create_name_is_taken_per_owner (form again : CreateDatasetForm)
    (self self' : Self Dataset) (db : DB) :
  object self' = None →
  ¬ duplicate_name form db →
  account_id (user (cd_request again)) = account_id (user (cd_request form)) →
  cd_name again = cd_name form →
  let db1 := snd (snd (run (form_valid form) (self, db))) in
  length (datasets db1) = S (length (datasets db))
  ∧ run (form_valid again) (self', db1)
    = (inr (TemplateResponse "dataset/create.html"
              {[ "form" := CCreateForm
                   (cd_add_error
                      "A dataset with this name already exists, please choose another."
                      again) ]}),
       (self', db1))
  ∧ (∀ other : CreateDatasetForm,
       account_id (user (cd_request other))
         ≠ account_id (user (cd_request form)) →
       ¬ duplicate_name other db →
       ∃ row, ds_owner row = user (cd_request other)
         ∧ ds_name row = cd_name other
         ∧ run (form_valid other) (self', db1)
           = (inr (HttpResponseRedirect (get_absolute_url row)),
              ({| kwargs := kwargs self'; object := Some row |},
               set_datasets (datasets db1 ++ [row]) db1))).
Proof.
  intros Hobj Hfree Hsame Hname db1. subst db1.
  rewrite (create_form_valid_saved form self db Hfree).
  cbn [snd datasets set_datasets].
  split; [rewrite length_app; cbn; lia|]. split.
  - apply create_form_valid_duplicate; [done|].
    unfold duplicate_name. cbn [datasets set_datasets].
    apply Exists_app. right. apply Exists_cons_hd. cbn. by rewrite Hsame, Hname.
  - intros other Hother Hfree'.
    eexists. split; [|split]; cycle 2.
    + apply create_form_valid_saved.
      unfold duplicate_name in *. cbn [datasets set_datasets].
      rewrite Exists_app, Exists_cons, Exists_nil. cbn.
      intros [?|[[Hid _]|[]]]; [done|]. by apply Hother.
    + done.
    + done.
Qed.

End CreateAgain.

Section UploadAgain.
Context {model : DatasetModel}.
Import DataFileUploadView.

(** The lookup of a dataset does not depend on the files. *)
Lemma Dataset_objects_get_files (account slug : option string) (db : DB)
    (d : Dataset) (files : list DataFile) :
  run (Dataset_objects_get account slug) db = (inr d, db) →
  run (Dataset_objects_get account slug) (set_datafiles files db)
  = (inr d, set_datafiles files db).
Proof.
  unfold Dataset_objects_get, queryset_get. unfold_monad.
  cbn [datasets set_datafiles].
  destruct (filter_name slug (filter_owner__name account (datasets db)))
    as [|d0 [|d1 rest]]; intros Heq; try discriminate.
  by injection Heq as ->.
Qed.

(** X13: once a file-upload request, posted to the upload page of the
    dataset its form names, has stored its file, a further upload of the
    same content to the same dataset from that page is rejected by the
    save: it gets the upload form back with the duplicate-file error and
    stores nothing. *)
Theorem upload_same_content_again_is_rejected
    (form again : DataFileUploadForm) (self self' : Self DataFile) (db : DB) :
  object self' = None →
  ¬ duplicate_file form db →
  run (Dataset_objects_get (kwargs self !! "account")
         (kwargs self !! "slug")) db = (inr (uf_dataset form), db) →
  run (Dataset_objects_get (kwargs self' !! "account")
         (kwargs self' !! "slug")) db = (inr (uf_dataset form), db) →
  uf_dataset again = uf_dataset form →
  uf_data again = uf_data form →
  let db1 := snd (snd (run (form_valid form) (self, db))) in
  length (datafiles db1) = S (length (datafiles db))
  ∧ run (DataFileUploadForm_save again) db1 = (inl IntegrityError, db1)
  ∧ run (form_valid again) (self', db1)
    = (inr (TemplateResponse "dataset/upload.html"
              (<["dataset" := CDataset (uf_dataset form)]>
                 {[ "form" := CUploadForm
                      (uf_add_error
                         "Duplicate file detected! Cannot upload the same file twice."
                         again) ]})),
       (self', db1)).
Proof.
  intros Hobj Hfree _ Hpath Hsame Hdata db1. subst db1.
  rewrite (upload_form_valid_saved form self db Hfree).
  cbn [snd datafiles set_datafiles].
  set (row := {| df_pk := next_pk df_pk (datafiles db);
                 df_dataset := uf_dataset form; df_data := uf_data form |}).
  set (db1 := set_datafiles (datafiles db ++ [row]) db).
  assert (Hdup : duplicate_file again db1).
  { unfold duplicate_file. cbn [datafiles set_datafiles db1].
    apply Exists_app. right. apply Exists_cons_hd. cbn.
    by rewrite Hsame, Hdata. }
  pose proof (upload_form_valid_duplicate again self' db1 Hdup) as Hfv.
  pose proof (upload_context_fresh
    (uf_add_error
       "Duplicate file detected! Cannot upload the same file twice." again)
    self' db1 Hobj) as Hctx.
  pose proof (Dataset_objects_get_files _ _ _ _ (datafiles db ++ [row]) Hpath)
    as Hget. fold db1 in Hget.
  split; [rewrite length_app; cbn; lia|].
  split; [by apply upload_save_rejects|].
  rewrite Hfv. unfold super_form_invalid. unfold_monad.
  by rewrite Hctx, Hget.
Qed.

(** X9: when more than one dataset has the owner name and the name of the
    path, the upload page cannot be rendered: GET, and a POST that has to
    show the form again because its file is a duplicate, end in
    [MultipleObjectsReturned], a server error, and store nothing. *)
Theorem upload_several_matches_is_server_error (form : DataFileUploadForm)
    (self : Self DataFile) (db : DB) (d1 d2 : Dataset)
    (rest : list Dataset) :
  object self = None →
  filter_name (kwargs self !! "slug")
    (filter_owner__name (kwargs self !! "account") (datasets db))
  = d1 :: d2 :: rest →
  run (get form) (self, db) = (inl MultipleObjectsReturned, (self, db))
  ∧ (duplicate_file form db →
     run (form_valid form) (self, db)
     = (inl MultipleObjectsReturned, (self, db)))
  ∧ status_of_exception MultipleObjectsReturned = 500.
Proof.
  intros Hobj Hfound.
  assert (Hget : Dataset_objects_get (kwargs self !! "account")
                   (kwargs self !! "slug") db
                 = (inl MultipleObjectsReturned, db)).
  { unfold Dataset_objects_get, queryset_get. unfold_monad. by rewrite Hfound. }
  assert (Hrender : ∀ form', run (super_form_invalid form') (self, db)
                             = (inl MultipleObjectsReturned, (self, db))).
  { intros form'. pose proof (upload_context_fresh form' self db Hobj) as Hctx.
    unfold super_form_invalid. unfold_monad. by rewrite Hctx, Hget. }
  split; [exact (Hrender form)|]. split; [|done].
  intros Hdup. by rewrite (upload_form_valid_duplicate form self db Hdup).
Qed.

End UploadAgain.

Lemma alice_wine_is_free :
  ¬ duplicate_name
      {| cd_request := request_of alice ∅; cd_name := "wine";
         cd_errors := [] |} sample_db.
Proof. apply (bool_decide_unpack _). vm_compute. exact I. Qed.

(** Alice creates "wine" and then asks for "wine" again. *)
Lemma create_name_is_taken_per_owner_witness :
  let form := {| cd_request := request_of alice ∅; cd_name := "wine";
                 cd_errors := [] |} in
  let db1 := snd (snd (run (DatasetCreateView.form_valid
                              (model := sample_model) form)
                         (fresh "alice" "new", sample_db))) in
  length (datasets db1) = S (length (datasets sample_db))
  ∧ run (DatasetCreateView.form_valid (model := sample_model) form)
      (fresh "alice" "new", db1)
    = (inr (TemplateResponse "dataset/create.html"
              {[ "form" := CCreateForm
                   (cd_add_error
                      "A dataset with this name already exists, please choose another."
                      form) ]}),
       (fresh "alice" "new", db1)).
Proof.
  intros form db1.
  pose proof (create_name_is_taken_per_owner (model := sample_model)
                form form (fresh "alice" "new") (fresh "alice" "new")
                sample_db eq_refl alice_wine_is_free eq_refl eq_refl) as Hall.
  split; [exact (proj1 Hall)|exact (proj1 (proj2 Hall))].
Defined.

Lemma iris_more_is_new : ¬ duplicate_file iris_more sample_db.
Proof. apply (bool_decide_unpack _). vm_compute. exact I. Qed.

(** New content for iris, uploaded twice from the upload page of iris. *)
Lemma upload_same_content_again_is_rejected_witness :
  let db1 := snd (snd (run (DataFileUploadView.form_valid
                              (model := sample_model) iris_more)
                         (fresh "alice" "iris", sample_db))) in
  length (datafiles db1) = S (length (datafiles sample_db))
  ∧ run (DataFileUploadForm_save iris_more) db1 = (inl IntegrityError, db1)
  ∧ run (DataFileUploadView.form_valid (model := sample_model) iris_more)
      (fresh "alice" "iris", db1)
    = (inr (TemplateResponse "dataset/upload.html"
              (<["dataset" := CDataset iris]>
                 {[ "form" := CUploadForm
                      (uf_add_error
                         "Duplicate file detected! Cannot upload the same file twice."
                         iris_more) ]})),
       (fresh "alice" "iris", db1)).
Proof.
  intros db1.
  exact (upload_same_content_again_is_rejected (model := sample_model)
           iris_more iris_more (fresh "alice" "iris") (fresh "alice" "iris")
           sample_db eq_refl iris_more_is_new eq_refl eq_refl eq_refl
           eq_refl).
Defined.

(** The upload page of alice/iris when two accounts are named alice and each
    has a dataset "iris". *)
Lemma upload_several_matches_is_server_error_witness :
  let twin := {| ds_pk := 9;
                 ds_owner := {| account_id := 11; account_name := "alice" |};
                 ds_name := "iris"; ds_created := 120 |} in
  run (DataFileUploadView.get iris_more)
    (fresh "alice" "iris", set_datasets [iris; twin] sample_db)
  = (inl MultipleObjectsReturned,
     (fresh "alice" "iris", set_datasets [iris; twin] sample_db)).
Proof.
  intros twin.
  exact (proj1 (upload_several_matches_is_server_error
                  (model := sample_model) iris_more (fresh "alice" "iris")
                  (set_datasets [iris; twin] sample_db) iris twin []
                  eq_refl eq_refl)).
Defined.

(** ** What requests leave untouched *)

Lemma Dataset_objects_get_readonly (account slug : option string) (db : DB) :
  snd (run (Dataset_objects_get account slug) db) = db.
Proof.
  destruct (Dataset_objects_get_cases account slug db)
    as [[d Hd]|[Hd|Hd]]; by rewrite Hd.
Qed.

Section ReadOnly.
Context {model : DatasetModel} {serializer : StarSerializer}.

(** The context of the upload page is built without writing, whether or not
    the instance has an [object]. *)
Lemma upload_context_readonly (form : DataFileUploadForm)
    (s : Store DataFile) :
  snd (run (DataFileUploadView.get_context_data form) s) = s.
Proof.
  destruct s as [self db]. destruct (object self) as [o|] eqn:Hobj.
  - by rewrite (upload_context_object form self db o Hobj).
  - rewrite (upload_context_fresh form self db Hobj).
    by destruct (run (Dataset_objects_get _ _) db) as [[e|d] db'].
Qed.

Lemma upload_render_readonly (form : DataFileUploadForm)
    (s : Store DataFile) :
  snd (run (DataFileUploadView.super_form_invalid form) s) = s.
Proof.
  pose proof (upload_context_readonly form s) as Hctx.
  unfold DataFileUploadView.super_form_invalid. unfold_monad.
  by destruct (DataFileUploadView.get_context_data form s) as [[e|c] s'].
Qed.

(** X14: the requests that only read write nothing, whatever their outcome:
    the upload page, the dataset list and the star list leave the store as
    it is, and a detail panel leaves the database as it is. *)
Theorem reading_requests_write_nothing (form : DataFileUploadForm)
    (upload : Store DataFile) (page : Z) (cls : DatasetDetailView.Attrs)
    (detail : Store Dataset) (request : Request) (db : DB) :
  snd (run (DataFileUploadView.get form) upload) = upload
  ∧ snd (run (DatasetListView.get page) db) = db
  ∧ snd (snd (run (DatasetDetailView.get cls) detail)) = snd detail
  ∧ snd (run (StarredDatasetsViewSet.list_ request) db) = db.
Proof.
  split; [exact (upload_render_readonly form upload)|].
  split; [|split; [|done]].
  - destruct (decide (1 ≤ page
      ≤ DatasetListView.num_pages (queryset_count (datasets db))))
      as [Hp|Hp]; unfold DatasetListView.get; unfold_monad.
    + destruct (list_context_of_page page db Hp) as (context & Hrun & _).
      unfold run in Hrun. by rewrite Hrun.
    + pose proof (list_context_no_page page db Hp) as Hrun.
      unfold run in Hrun. by rewrite Hrun.
  - destruct detail as [self db']. rewrite detail_get_of_object.
    destruct (run DatasetDetailView.get_object (self, db'))
      as [[e|d] s'] eqn:Hobj; cbn [snd].
    + revert Hobj.
      unfold DatasetDetailView.get_object, DatasetDetailView.get_queryset,
        queryset_get. unfold_monad. cbn [fst snd].
      destruct (kwargs self !! "pk") as [pk|];
        destruct (kwargs self !! "slug") as [slug|];
        try destruct (DatasetDetailView.int_of_string pk) as [n|];
        cbn beta iota;
        try (intros [= <- <-]; done);
        match goal with
        | |- context [match ?l with [] => _ | _ => _ end] =>
            destruct l as [|d0 [|d1 rest]]
        end; cbn; intros [= <- <-]; done.
    + by apply detail_get_object_in_queryset in Hobj as [-> _].
Qed.

(** X15: a request that ends in an exception has stored nothing: this holds
    for star-create requests (a missing key, rejected data, a save the
    storage layer rejects), for star-destroy requests and for the handling
    of a valid upload form. *)
Theorem failed_requests_store_nothing (request : Request)
    (form : DataFileUploadForm) (s : Store DataFile) (db : DB)
    (e : Exception) :
  (fst (run (StarredDatasetsViewSet.create request) db) = inl e →
   snd (run (StarredDatasetsViewSet.create request) db) = db)
  ∧ (fst (run (StarredDatasetsViewSet.destroy request) db) = inl e →
     snd (run (StarredDatasetsViewSet.destroy request) db) = db)
  ∧ (fst (run (DataFileUploadView.form_valid form) s) = inl e →
     snd (run (DataFileUploadView.form_valid form) s) = s).
Proof.
  split; [|split].
  - unfold StarredDatasetsViewSet.create, StarredDatasetSerializer_save.
    unfold_monad.
    destruct (data request !! "dataset_id") as [d|]; cbn beta iota; [|done].
    destruct (is_valid _ db); [|done]. by destruct (bool_decide _).
  - unfold StarredDatasetsViewSet.destroy,
      StarredDatasetsViewSet.queryset_filter, queryset_first,
      StarredDatasetsViewSet.delete, StarredDataset_delete.
    unfold_monad.
    destruct (data request !! "dataset_id") as [d|]; cbn beta iota; [|done].
    by destruct (head _).
  - destruct s as [self db']. destruct (decide (duplicate_file form db'))
      as [Hdup|Hdup].
    + rewrite (upload_form_valid_duplicate form self db' Hdup).
      intros _. apply upload_render_readonly.
    + by rewrite (upload_form_valid_saved form self db' Hdup).
Qed.

End ReadOnly.

(** Alice stars dataset 6, which she has starred already: the save is
    rejected and nothing is stored. *)
Lemma failed_requests_store_nothing_witness :
  fst (run (StarredDatasetsViewSet.create (serializer := sample_serializer)
              (request_of alice {[ "dataset_id" := 6 ]})) sample_db)
  = inl IntegrityError
  ∧ snd (run (StarredDatasetsViewSet.create (serializer := sample_serializer)
                (request_of alice {[ "dataset_id" := 6 ]})) sample_db)
    = sample_db.
Proof.
  split; [reflexivity|].
  apply (proj1 (failed_requests_store_nothing
                  (model := sample_model)
                  (serializer := sample_serializer)
                  (request_of alice {[ "dataset_id" := 6 ]}) iris_more
                  (fresh "alice" "iris", sample_db) sample_db
                  IntegrityError)).
  reflexivity.
Defined.
